(** * Holographic diffraction gratings: the calculation script, verified

    A shallow embedding of [program.py]: the intensity field of two
    interfering plane waves ([calculate_intensity]), the grating
    parameters in air and in the medium ([calculate_grating_parameters]),
    the two rendering routines that save a picture ([create_table_image],
    [create_graphs]), the grid ([get_size]) and the body of the script
    that calls them in turn ([script], [main]).

    Numbers.  A Python [float] and a NumPy [float64] are both IEEE
    binary64 values.  They are modelled by [float64]: an exact real
    number, or one of the three special values +inf, -inf and NaN.
    The operations follow the IEEE rules for the special values
    (inf - inf = NaN, 0 * inf = NaN, x / inf = 0, comparisons with NaN are
    false, ...) and are exact on finite values: rounding and overflow
    of finite results are not represented.  The sign of a zero is not
    tracked either; a division by zero, the only operation that can see it,
    is taken at +0.  In this program such a quotient is only ever
    observed through [np.abs] or through the domain test of [np.arcsin],
    which do not depend on its sign.

    A numbered property (C.., X..) that overflow or rounding would break is
    stated accordingly: its hypotheses speak of the intermediate values the
    code computes (a finite wave-vector component, a finite phase
    difference) and not of the inputs alone, and an equality that rounding
    breaks is stated up to 1e-9.

    Effects.  Python raises, NumPy does not: [/] between two Python floats
    raises [ZeroDivisionError] on a zero divisor, whereas every NumPy
    operation returns inf or NaN (and emits a warning, which is not an
    exception).  Functions of the script live in the monad [py], which
    threads the text printed on standard output and may raise. *)

From Stdlib Require Import Reals Lra.
From stdpp Require Import base option list strings gmap.

Open Scope R_scope.

(** ** Binary64 values *)

Inductive float64 : Type :=
  | Fin (r : R)
  | PInf
  | NInf
  | NaN.

Definition is_finite (x : float64) : Prop :=
  match x with Fin _ => True | _ => False end.

Definition is_nan (x : float64) : Prop :=
  match x with NaN => True | _ => False end.

(** The infinity with the sign of [r]; NaN when [r] is zero.  It is the
    value of [r * inf] and of [r / 0]. *)
Definition signed_inf (r : R) : float64 :=
  if Req_dec_T r 0 then NaN
  else if Rlt_dec 0 r then PInf else NInf.

Definition fneg (x : float64) : float64 :=
  match x with
  | Fin r => Fin (- r)
  | PInf => NInf
  | NInf => PInf
  | NaN => NaN
  end.

Definition fadd (x y : float64) : float64 :=
  match x, y with
  | NaN, _ | _, NaN => NaN
  | Fin a, Fin b => Fin (a + b)
  | PInf, NInf | NInf, PInf => NaN
  | PInf, _ | _, PInf => PInf
  | NInf, _ | _, NInf => NInf
  end.

Definition fsub (x y : float64) : float64 := fadd x (fneg y).

Definition fmul (x y : float64) : float64 :=
  match x, y with
  | NaN, _ | _, NaN => NaN
  | Fin a, Fin b => Fin (a * b)
  | Fin a, PInf | PInf, Fin a => signed_inf a
  | Fin a, NInf | NInf, Fin a => fneg (signed_inf a)
  | PInf, PInf | NInf, NInf => PInf
  | PInf, NInf | NInf, PInf => NInf
  end.

(** [x / y] as NumPy computes it: no exception, a zero divisor gives an
    infinity or NaN. *)
Definition np_div (x y : float64) : float64 :=
  match x, y with
  | NaN, _ | _, NaN => NaN
  | Fin a, Fin b => if Req_dec_T b 0 then signed_inf a else Fin (a / b)
  | Fin _, (PInf | NInf) => Fin 0
  | PInf, Fin b => if Rlt_dec b 0 then NInf else PInf
  | NInf, Fin b => if Rlt_dec b 0 then PInf else NInf
  | (PInf | NInf), (PInf | NInf) => NaN
  end.

(** [x ** 2] *)
Definition fpow2 (x : float64) : float64 := fmul x x.

(** [np.abs] *)
Definition np_abs (x : float64) : float64 :=
  match x with
  | Fin r => Fin (Rabs r)
  | PInf | NInf => PInf
  | NaN => NaN
  end.

(** [np.sqrt]: NaN below zero. *)
Definition np_sqrt (x : float64) : float64 :=
  match x with
  | Fin r => if Rlt_dec r 0 then NaN else Fin (sqrt r)
  | PInf => PInf
  | NInf | NaN => NaN
  end.

(** [np.sin], [np.cos]: NaN at the infinities. *)
Definition np_sin (x : float64) : float64 :=
  match x with Fin r => Fin (sin r) | _ => NaN end.

Definition np_cos (x : float64) : float64 :=
  match x with Fin r => Fin (cos r) | _ => NaN end.

(** [np.arcsin]: outside [-1, 1] the result is NaN; NumPy emits a
    [RuntimeWarning] there and raises nothing. *)
Definition np_arcsin (x : float64) : float64 :=
  match x with
  | Fin r =>
      if Rle_dec (-1) r then
        if Rle_dec r 1 then Fin (asin r) else NaN
      else NaN
  | _ => NaN
  end.

(** [np.pi] *)
Definition np_pi : float64 := Fin PI.

(** [np.deg2rad], and [np.rad2deg] (of which [np.degrees] is an alias). *)
Definition np_deg2rad (x : float64) : float64 := fmul x (Fin (PI / 180)).
Definition np_rad2deg (x : float64) : float64 := fmul x (Fin (180 / PI)).
Definition np_degrees (x : float64) : float64 := np_rad2deg x.

(** [x != 0]: true on NaN and on the infinities. *)
Definition fne0 (x : float64) : bool :=
  match x with
  | Fin r => if Req_dec_T r 0 then false else true
  | _ => true
  end.

(** The order of binary64: every comparison with NaN is false. *)
Definition flt (x y : float64) : Prop :=
  match x, y with
  | Fin a, Fin b => a < b
  | NInf, (Fin _ | PInf) => True
  | Fin _, PInf => True
  | _, _ => False
  end.

Definition fle (x y : float64) : Prop :=
  match x, y with
  | Fin a, Fin b => a <= b
  | NInf, (Fin _ | PInf | NInf) => True
  | (Fin _ | PInf), PInf => True
  | _, _ => False
  end.

(** ** Exceptions and standard output *)

Inductive exn : Type :=
  | ZeroDivisionError
  | ValueError.

Inductive outcome (A : Type) : Type :=
  | Return (a : A)
  | Raise (e : exn).
Arguments Return {A} a.
Arguments Raise {A} e.

Abbreviation stdout := (list string).

Definition py (A : Type) : Type := stdout → outcome A * stdout.

Definition py_ret {A} (a : A) : py A := λ out, (Return a, out).

Definition py_bind {A B} (m : py A) (k : A → py B) : py B :=
  λ out,
    match m out with
    | (Return a, out') => k a out'
    | (Raise e, out') => (Raise e, out')
    end.

Definition py_raise {A} (e : exn) : py A := λ out, (Raise e, out).

(** [print(s)] *)
Definition print (s : string) : py unit := λ out, (Return tt, out ++ [s]).

(** [try: body / except ValueError: handler] *)
Definition try_except_ValueError {A} (body handler : py A) : py A :=
  λ out,
    match body out with
    | (Raise ValueError, out') => handler out'
    | r => r
    end.

#[global] Instance py_mret : MRet py := @py_ret.
#[global] Instance py_mbind : MBind py := λ A B k m, py_bind m k.

(** [x / y] between two Python floats. *)
Definition py_truediv (x y : float64) : py float64 :=
  if fne0 y then py_ret (np_div x y) else py_raise ZeroDivisionError.

(** ** Arrays

    A two-dimensional [ndarray] is the list of its rows.  The grids [X]
    and [Y] handed to [calculate_intensity] come from [np.meshgrid] and
    have one shape; operations between arrays are taken elementwise on
    arrays of one shape (broadcasting between different shapes is not
    modelled). *)

Abbreviation ndarray := (list (list float64)).

Definition same_shape (A B : ndarray) : Prop :=
  Forall2 (λ r s : list float64, length r = length s) A B.

(** [A[i][j]] *)
Definition item (A : ndarray) (i j : nat) : option float64 :=
  A !! i ≫= λ row : list float64, row !! j.

(** A scalar function applied to every element, as NumPy's ufuncs do. *)
Definition ufunc (f : float64 → float64) (A : ndarray) : ndarray :=
  fmap (M := list) (fmap (M := list) f) A.

(** A binary operation between two arrays of one shape. *)
Definition ufunc2 (f : float64 → float64 → float64) (A B : ndarray) : ndarray :=
  zip_with (zip_with f) A B.

(** ** The intensity field: [calculate_intensity]

    [phase_diff] is the local variable of that name, as a function of the
    arguments: the part of the body up to its assignment. *)

Definition phase_diff (X Y : ndarray) (wavelength theta_R theta_S : float64)
  : py ndarray :=
  let theta_R_rad := np_deg2rad theta_R in
  let theta_S_rad := np_deg2rad theta_S in
  k ← py_truediv (fmul (Fin 2) np_pi) wavelength;
  let k_Rx := fmul k (np_sin theta_R_rad) in
  let k_Rz := fmul k (np_cos theta_R_rad) in
  let k_Sx := fmul k (np_sin theta_S_rad) in
  let k_Sz := fmul k (np_cos theta_S_rad) in
  mret (ufunc2 fadd (ufunc (fmul (fsub k_Rx k_Sx)) X)
                    (ufunc (fmul (fsub k_Rz k_Sz)) Y)).

Definition calculate_intensity (X Y : ndarray)
    (wavelength theta_R theta_S : float64) : py ndarray :=
  phase_diff ← phase_diff X Y wavelength theta_R theta_S;
  let intensity := ufunc fpow2 (ufunc (λ c, fadd c (Fin 1)) (ufunc np_cos phase_diff)) in
  mret intensity.

(** ** The grating parameters: [calculate_grating_parameters] *)

(** One of the two inner dictionaries of the result; its keys are fixed. *)
Record medium_params : Type := MediumParams {
  period : float64;
  period_y : float64;
  period_z : float64;
  frequency : float64;
  frequency_y : float64;
  frequency_z : float64;
  tilt_angle : float64;
  bragg_angle : float64
}.

(** The returned dictionary, with its keys ['air'] and ['medium']. *)
Record grating_params : Type := GratingParams {
  air : medium_params;
  medium : medium_params
}.

Definition bragg_message : string :=
  "Error: Невозможно вычислить угол Брегга для заданных параметров".

(** [(theta_S + theta_R) / 2] divides Python floats by the literal [2],
    which is not zero: the division cannot raise, and is written with
    [np_div] (see [py_truediv_two]). *)
Definition calculate_grating_parameters
    (wavelength theta_R theta_S n_1 n_2 : float64) : py grating_params :=
  let theta_R_rad := np_deg2rad theta_R in
  let theta_S_rad := np_deg2rad theta_S in
  let freq_y_air :=
    np_div (fsub (np_sin theta_S_rad) (np_sin theta_R_rad)) wavelength in
  let freq_z_air :=
    np_div (fsub (np_cos theta_S_rad) (np_cos theta_R_rad)) wavelength in
  let freq_air := np_sqrt (fadd (fpow2 freq_z_air) (fpow2 freq_y_air)) in
  let d_y_air := if fne0 freq_y_air then np_div (Fin 1) freq_y_air else PInf in
  let d_z_air := if fne0 freq_z_air then np_div (Fin 1) freq_z_air else PInf in
  let psi_air := np_div (fadd theta_S theta_R) (Fin 2) in
  let psi_air_rad := np_deg2rad psi_air in
  let d_air := fmul d_y_air (np_cos psi_air_rad) in
  theta_bragg_air ←
    try_except_ValueError
      (mret (np_rad2deg
               (np_arcsin (np_div wavelength (fmul (fmul (Fin 2) n_1) d_air)))))
      (_ ← print bragg_message; mret NaN);
  ratio_R ← py_truediv n_1 n_2;
  let psi_R_rad := np_arcsin (fmul ratio_R (np_sin theta_R_rad)) in
  ratio_S ← py_truediv n_1 n_2;
  let psi_S_rad := np_arcsin (fmul ratio_S (np_sin theta_S_rad)) in
  let freq_y_medium :=
    np_div (fmul (fsub (np_sin psi_S_rad) (np_sin psi_R_rad)) n_2) wavelength in
  let freq_z_medium :=
    np_div (fmul (fsub (np_cos psi_S_rad) (np_cos psi_R_rad)) n_2) wavelength in
  let freq_medium :=
    np_sqrt (fadd (fpow2 freq_z_medium) (fpow2 freq_y_medium)) in
  let d_y_medium :=
    if fne0 freq_y_medium then np_div (Fin 1) freq_y_medium else PInf in
  let d_z_medium :=
    if fne0 freq_z_medium then np_div (Fin 1) freq_z_medium else PInf in
  let psi_medium :=
    np_div (fadd (np_degrees psi_S_rad) (np_degrees psi_R_rad)) (Fin 2) in
  let psi_medium_rad := np_deg2rad psi_medium in
  let d_medium := fmul d_y_medium (np_cos psi_medium_rad) in
  theta_bragg_medium ←
    try_except_ValueError
      (mret (np_rad2deg
               (np_arcsin (np_div wavelength (fmul (fmul (Fin 2) n_2) d_medium)))))
      (_ ← print bragg_message; mret NaN);
  mret {|
    air := {|
      period := np_abs d_air;
      period_y := np_abs d_y_air;
      period_z := np_abs d_z_air;
      frequency := np_abs (fmul freq_air (Fin 1000));
      frequency_y := np_abs (fmul freq_y_air (Fin 1000));
      frequency_z := np_abs (fmul freq_z_air (Fin 1000));
      tilt_angle := psi_air;
      bragg_angle := theta_bragg_air
    |};
    medium := {|
      period := np_abs d_medium;
      period_y := np_abs d_y_medium;
      period_z := np_abs d_z_medium;
      frequency := np_abs (fmul freq_medium (Fin 1000));
      frequency_y := np_abs (fmul freq_y_medium (Fin 1000));
      frequency_z := np_abs (fmul freq_z_medium (Fin 1000));
      tilt_angle := psi_medium;
      bragg_angle := theta_bragg_medium
    |}
  |}.

(** The local variables of [calculate_grating_parameters] that the
    properties below speak about, each as a function of the arguments.
    [calculate_grating_parameters_returns] shows that the function returns
    exactly the record [grating_record] built from them.  The ratio
    [n_1 / n_2] is written with [np_div]: the two agree whenever the Python
    division does not raise. *)

Section locals.
Variables wavelength theta_R theta_S n_1 n_2 : float64.

Definition freq_y_air : float64 :=
  np_div (fsub (np_sin (np_deg2rad theta_S)) (np_sin (np_deg2rad theta_R)))
         wavelength.
Definition freq_z_air : float64 :=
  np_div (fsub (np_cos (np_deg2rad theta_S)) (np_cos (np_deg2rad theta_R)))
         wavelength.
Definition freq_air : float64 :=
  np_sqrt (fadd (fpow2 freq_z_air) (fpow2 freq_y_air)).
Definition d_y_air : float64 :=
  if fne0 freq_y_air then np_div (Fin 1) freq_y_air else PInf.
Definition d_z_air : float64 :=
  if fne0 freq_z_air then np_div (Fin 1) freq_z_air else PInf.
Definition psi_air : float64 := np_div (fadd theta_S theta_R) (Fin 2).
Definition d_air : float64 := fmul d_y_air (np_cos (np_deg2rad psi_air)).

Definition psi_R_rad : float64 :=
  np_arcsin (fmul (np_div n_1 n_2) (np_sin (np_deg2rad theta_R))).
Definition psi_S_rad : float64 :=
  np_arcsin (fmul (np_div n_1 n_2) (np_sin (np_deg2rad theta_S))).
Definition freq_y_medium : float64 :=
  np_div (fmul (fsub (np_sin psi_S_rad) (np_sin psi_R_rad)) n_2) wavelength.
Definition freq_z_medium : float64 :=
  np_div (fmul (fsub (np_cos psi_S_rad) (np_cos psi_R_rad)) n_2) wavelength.
Definition freq_medium : float64 :=
  np_sqrt (fadd (fpow2 freq_z_medium) (fpow2 freq_y_medium)).
Definition d_y_medium : float64 :=
  if fne0 freq_y_medium then np_div (Fin 1) freq_y_medium else PInf.
Definition d_z_medium : float64 :=
  if fne0 freq_z_medium then np_div (Fin 1) freq_z_medium else PInf.
Definition psi_medium : float64 :=
  np_div (fadd (np_degrees psi_S_rad) (np_degrees psi_R_rad)) (Fin 2).
Definition d_medium : float64 :=
  fmul d_y_medium (np_cos (np_deg2rad psi_medium)).

(** The argument of the arcsine of a Bragg angle:
    [wavelength / (2 * n * d)]. *)
Definition bragg_arg (n d : float64) : float64 :=
  np_div wavelength (fmul (fmul (Fin 2) n) d).

Definition theta_bragg (n d : float64) : float64 :=
  np_rad2deg (np_arcsin (bragg_arg n d)).

Definition grating_record : grating_params :=
  {| air := {|
       period := np_abs d_air;
       period_y := np_abs d_y_air;
       period_z := np_abs d_z_air;
       frequency := np_abs (fmul freq_air (Fin 1000));
       frequency_y := np_abs (fmul freq_y_air (Fin 1000));
       frequency_z := np_abs (fmul freq_z_air (Fin 1000));
       tilt_angle := psi_air;
       bragg_angle := theta_bragg n_1 d_air |};
     medium := {|
       period := np_abs d_medium;
       period_y := np_abs d_y_medium;
       period_z := np_abs d_z_medium;
       frequency := np_abs (fmul freq_medium (Fin 1000));
       frequency_y := np_abs (fmul freq_y_medium (Fin 1000));
       frequency_z := np_abs (fmul freq_z_medium (Fin 1000));
       tilt_angle := psi_medium;
       bragg_angle := theta_bragg n_2 d_medium |} |}.
End locals.

(** ** Rendering: [create_table_image] and [create_graphs]

    Of Matplotlib only what decides where a picture ends up is modelled:
    [pyplot] keeps its figures, the most recent one being the current
    figure, and [plt.savefig] writes the current figure to a path of the
    working directory, replacing what that path held. *)

Inductive artist : Type :=
  | PlotSurface (X Y Z : ndarray)
  | Contourf (X Y Z : ndarray)
  | Title (values : list float64)
  | Table (params : grating_params) (n_1 n_2 : float64).

Abbreviation figure := (list artist).

Record pyplot : Type := Pyplot {
  figures : list figure;
  files : gmap string figure
}.

(** [plt.figure(...)], [plt.subplots(...)]: a new, current figure. *)
Definition plt_figure (s : pyplot) : pyplot :=
  {| figures := [] :: figures s; files := files s |}.

(** Drawing on the current figure. *)
Definition draw (a : artist) (s : pyplot) : pyplot :=
  match figures s with
  | [] => {| figures := [[a]]; files := files s |}
  | fig :: figs => {| figures := (fig ++ [a]) :: figs; files := files s |}
  end.

(** [plt.savefig(path, ...)] *)
Definition savefig (path : string) (s : pyplot) : pyplot :=
  match figures s with
  | [] => {| figures := [[]]; files := <[path := []]> (files s) |}
  | fig :: _ => {| figures := figures s; files := <[path := fig]> (files s) |}
  end.

(** The table holds the sixteen values of [params] and, in its column
    labels, the two indices. *)
Definition create_table_image (params : grating_params) (n_1 n_2 : float64)
    (s : pyplot) : py pyplot :=
  let s := plt_figure s in
  let s := draw (Table params n_1 n_2) s in
  mret (savefig "results_table.png" s).

(** [X], [Y], [I_air] and [I_medium] are globals of the script, read by
    [create_graphs]; here they are arguments.  A [Title] lists the values
    its f-string formats, in their order; [wavelength/n_1] and
    [wavelength/n_2] there divide Python floats. *)
Definition create_graphs (wavelength theta_R theta_S n_1 n_2 : float64)
    (X Y I_air I_medium : ndarray) (s : pyplot) : py pyplot :=
  let s := plt_figure s in
  let s := draw (PlotSurface X Y I_air) s in
  lam ← py_truediv wavelength n_1;
  let s := draw (Title [lam; n_1; theta_R; theta_S]) s in
  let s := draw (Contourf Y X I_air) s in
  lam ← py_truediv wavelength n_1;
  let s := draw (Title [theta_S; theta_R; lam]) s in
  let s := draw (PlotSurface X Y I_medium) s in
  lam ← py_truediv wavelength n_2;
  let s := draw (Title [lam; n_2; theta_R; theta_S]) s in
  let s := draw (Contourf Y X I_medium) s in
  lam ← py_truediv wavelength n_2;
  let s := draw (Title [theta_S; theta_R; lam]) s in
  mret (savefig "results_table.png" s).

(** The script once its five inputs are read and the grid is built:
    the two intensity fields, the parameters, the table and the plots.
    ([plt.show()] at its end writes no file.) *)
Definition script (X Y : ndarray) (wavelength theta_R theta_S n_1 n_2 : float64)
    (s : pyplot) : py pyplot :=
  I_air ← calculate_intensity X Y wavelength theta_R theta_S;
  wavelength_medium ← py_truediv wavelength n_2;
  I_medium ← calculate_intensity X Y wavelength_medium theta_R theta_S;
  params ← calculate_grating_parameters wavelength theta_R theta_S n_1 n_2;
  s ← create_table_image params n_1 n_2 s;
  create_graphs wavelength theta_R theta_S n_1 n_2 X Y I_air I_medium s.

(** The figures the two routines draw. *)
Definition table_figure (params : grating_params) (n_1 n_2 : float64) : figure :=
  [Table params n_1 n_2].

Definition graphs_figure (wavelength theta_R theta_S n_1 n_2 : float64)
    (X Y I_air I_medium : ndarray) : figure :=
  [PlotSurface X Y I_air;
   Title [np_div wavelength n_1; n_1; theta_R; theta_S];
   Contourf Y X I_air;
   Title [theta_S; theta_R; np_div wavelength n_1];
   PlotSurface X Y I_medium;
   Title [np_div wavelength n_2; n_2; theta_R; theta_S];
   Contourf Y X I_medium;
   Title [theta_S; theta_R; np_div wavelength n_2]].

(** ** The grid: [get_size]

    [np.arange(start, stop, step)] holds the [ceil((stop - start) / step)]
    values [start + i * step] (none when that count is not positive); a
    zero step raises [ZeroDivisionError] when the count is computed.
    [np.meshgrid(x, y)] repeats [x] along the rows and [y] along the
    columns: [X[i][j] = x[j]] and [Y[i][j] = y[i]].  [scale] and [step] are
    globals of the script, numeric literals there, read by [get_size]; here
    they are arguments. *)

Definition Rceil (x : R) : Z := (1 - up (- x))%Z.

Definition np_arange (start stop step : R) : py (list float64) :=
  if Req_dec_T step 0 then py_raise ZeroDivisionError
  else
    mret ((λ i : nat, Fin (start + INR i * step))
            <$> seq 0 (Z.to_nat (Rceil ((stop - start) / step)))).

Definition np_meshgrid (x y : list float64) : ndarray * ndarray :=
  ((λ _ : float64, x) <$> y,
   (λ y_i : float64, replicate (length x) y_i) <$> y).

Definition get_size (scale step : R) : py (ndarray * ndarray) :=
  x ← np_arange (- scale) scale step;
  y ← np_arange (- scale) scale step;
  mret (np_meshgrid x y).

(** The script itself, from the values [input_data] has returned on:
    [scale = 1], [step = 0.01], the grid, then [script]. *)
Definition main (wavelength theta_R theta_S n_1 n_2 : float64) (s : pyplot)
  : py pyplot :=
  let scale := 1 in
  let step := 1 / 100 in
  grid ← get_size scale step;
  script grid.1 grid.2 wavelength theta_R theta_S n_1 n_2 s.

(** ** The intensity at one grid point, as the specification states it

    [k = 2*pi/wavelength]; the wave-vector components are [k*sin] and
    [k*cos] of the angles in radians; the phase difference is
    [(k_Rx - k_Sx)*x + (k_Rz - k_Sz)*y] and the intensity
    [(cos(phase_diff) + 1)^2]. *)

Definition wave_number (wavelength : float64) : float64 :=
  np_div (fmul (Fin 2) np_pi) wavelength.

Definition phase_at (wavelength theta_R theta_S x y : float64) : float64 :=
  let k := wave_number wavelength in
  let k_Rx := fmul k (np_sin (np_deg2rad theta_R)) in
  let k_Rz := fmul k (np_cos (np_deg2rad theta_R)) in
  let k_Sx := fmul k (np_sin (np_deg2rad theta_S)) in
  let k_Sz := fmul k (np_cos (np_deg2rad theta_S)) in
  fadd (fmul (fsub k_Rx k_Sx) x) (fmul (fsub k_Rz k_Sz) y).

Definition intensity_at (wavelength theta_R theta_S x y : float64) : float64 :=
  fpow2 (fadd (np_cos (phase_at wavelength theta_R theta_S x y)) (Fin 1)).

(** The two coefficients of the phase difference: [k_Rx - k_Sx], which
    multiplies [X], and [k_Rz - k_Sz], which multiplies [Y]. *)
Definition phase_coeff_X (wavelength theta_R theta_S : float64) : float64 :=
  let k := wave_number wavelength in
  fsub (fmul k (np_sin (np_deg2rad theta_R))) (fmul k (np_sin (np_deg2rad theta_S))).

Definition phase_coeff_Y (wavelength theta_R theta_S : float64) : float64 :=
  let k := wave_number wavelength in
  fsub (fmul k (np_cos (np_deg2rad theta_R))) (fmul k (np_cos (np_deg2rad theta_S))).

(** Every element of an array is a finite number. *)
Definition all_finite (A : ndarray) : Prop :=
  ∀ i j e, item A i j = Some e → is_finite e.

(** ** The tilt angles, as the specification states them

    In air the bisector of the two beam angles; in the medium the mean of
    the two angles refracted by Snell's law,
    [arcsin((n_1/n_2) * sin(theta))], in degrees.  All angles are in
    degrees. *)



(** The six fields of a sub-record to which [np.abs] is applied. *)
Definition abs_fields (m : medium_params) : list float64 :=
  [period m; period_y m; period_z m; frequency m; frequency_y m; frequency_z m].

(** ** Basic facts about the operations *)

Ltac case_dec :=
  repeat match goal with
    | |- context [Req_dec_T ?a ?b] => destruct (Req_dec_T a b)
    | |- context [Rlt_dec ?a ?b] => destruct (Rlt_dec a b)
    | |- context [Rle_dec ?a ?b] => destruct (Rle_dec a b)
    end.

Lemma signed_inf_pos (r : R) : 0 < r → signed_inf r = PInf.
Proof. intros Hr. unfold signed_inf. case_dec; try reflexivity; lra. Qed.

Lemma fne0_Fin (r : R) : r ≠ 0 → fne0 (Fin r) = true.
Proof. intros Hr. unfold fne0. case_dec; [contradiction | reflexivity]. Qed.

Lemma fne0_zero : fne0 (Fin 0) = false.
Proof. unfold fne0. case_dec; [reflexivity | lra]. Qed.

Lemma fne0_false (x : float64) : fne0 x = false → x = Fin 0.
Proof.
  destruct x as [r| | |]; simpl; try discriminate.
  case_dec; [congruence | discriminate].
Qed.

Lemma np_div_Fin (a b : R) : b ≠ 0 → np_div (Fin a) (Fin b) = Fin (a / b).
Proof. intros Hb. unfold np_div. case_dec; [contradiction | reflexivity]. Qed.

Lemma py_truediv_ne0 (x y : float64) (out : stdout) :
  fne0 y = true → py_truediv x y out = (Return (np_div x y), out).
Proof. intros Hy. unfold py_truediv. rewrite Hy. reflexivity. Qed.

Lemma py_truediv_zero (x : float64) (out : stdout) :
  py_truediv x (Fin 0) out = (Raise ZeroDivisionError, out).
Proof. unfold py_truediv. rewrite fne0_zero. reflexivity. Qed.

(** Dividing a Python float by the literal [2] never raises. *)
Lemma py_truediv_two (x : float64) :
  py_truediv x (Fin 2) = mret (np_div x (Fin 2)).
Proof. unfold py_truediv. rewrite fne0_Fin by lra. reflexivity. Qed.

Lemma np_deg2rad_Fin (a : R) : np_deg2rad (Fin a) = Fin (a * (PI / 180)).
Proof. reflexivity. Qed.

Lemma np_rad2deg_Fin (a : R) : np_rad2deg (Fin a) = Fin (a * (180 / PI)).
Proof. reflexivity. Qed.

Lemma np_arcsin_Fin (r : R) : -1 <= r <= 1 → np_arcsin (Fin r) = Fin (asin r).
Proof. intros [H1 H2]. unfold np_arcsin. case_dec; try reflexivity; lra. Qed.

(** Outside its domain the arcsine is NaN: no exception. *)
Lemma np_arcsin_outside (x : float64) :
  flt (Fin 1) (np_abs x) → np_arcsin x = NaN.
Proof.
  destruct x as [r| | |]; simpl; try reflexivity.
  intros Hr. case_dec; try reflexivity.
  rewrite Rabs_pos_eq in Hr; lra || (unfold Rabs in Hr; destruct (Rcase_abs r); lra).
Qed.

Lemma np_abs_nonneg (x : float64) : np_abs x = NaN ∨ fle (Fin 0) (np_abs x).
Proof.
  destruct x as [r| | |]; simpl; auto.
  right. apply Rabs_pos.
Qed.

Lemma np_cos_range (x : float64) :
  np_cos x = NaN ∨ ∃ c, np_cos x = Fin c ∧ -1 <= c <= 1.
Proof.
  destruct x as [r| | |]; simpl; auto.
  right. exists (cos r). split; [reflexivity | apply COS_bound].
Qed.

(** ** Facts about arrays *)

Lemma item_ufunc (f : float64 → float64) (A : ndarray) (i j : nat) :
  item (ufunc f A) i j = f <$> item A i j.
Proof.
  unfold item, ufunc. rewrite list_lookup_fmap.
  destruct (A !! i) as [row|]; simpl; [|reflexivity].
  apply list_lookup_fmap.
Qed.

Lemma item_ufunc2 (f : float64 → float64 → float64) (A B : ndarray)
    (i j : nat) (e : float64) :
  item (ufunc2 f A B) i j = Some e ↔
  ∃ a b, item A i j = Some a ∧ item B i j = Some b ∧ e = f a b.
Proof.
  unfold item, ufunc2. rewrite lookup_zip_with.
  destruct (A !! i) as [ra|], (B !! i) as [rb|]; simpl;
    try (split; [discriminate | intros (a & b & ? & ? & ?); discriminate]).
  rewrite lookup_zip_with.
  destruct (ra !! j) as [a|], (rb !! j) as [b|]; simpl;
    try (split; [discriminate | intros (a' & b' & ? & ? & ?); discriminate]).
  split.
  - intros [= <-]. eauto.
  - intros (a' & b' & [= <-] & [= <-] & ->). reflexivity.
Qed.

Lemma same_shape_ufunc (f : float64 → float64) (A : ndarray) :
  same_shape A (ufunc f A).
Proof.
  unfold same_shape, ufunc. induction A as [|row A IH]; constructor.
  - symmetry. apply length_fmap.
  - exact IH.
Qed.

Lemma same_shape_ufunc2 (f : float64 → float64 → float64) (A B : ndarray) :
  same_shape A B → same_shape A (ufunc2 f A B).
Proof.
  unfold same_shape, ufunc2. induction 1 as [|ra rb A B Hlen _ IH]; constructor.
  - rewrite length_zip_with. lia.
  - exact IH.
Qed.

Lemma same_shape_trans (A B C : ndarray) :
  same_shape A B → same_shape B C → same_shape A C.
Proof.
  unfold same_shape. intros HAB. revert C.
  induction HAB as [|ra rb A B Hlen _ IH]; intros C HBC; inversion HBC; subst;
    constructor; [congruence | auto].
Qed.

Lemma same_shape_sym (A B : ndarray) : same_shape A B → same_shape B A.
Proof. unfold same_shape. induction 1; constructor; auto. Qed.

(** Two arrays of one shape have their elements at the same indices. *)
Lemma same_shape_item (A B : ndarray) (i j : nat) :
  same_shape A B → is_Some (item A i j) ↔ is_Some (item B i j).
Proof.
  unfold same_shape, item. intros H. revert i.
  induction H as [|ra rb A B Hlen _ IH]; intros [|i]; simpl; try tauto.
  - rewrite !lookup_lt_is_Some, Hlen. tauto.
  - apply IH.
Qed.

(** ** [calculate_intensity]: when it returns, and what *)

Lemma phase_diff_returns (X Y : ndarray) (wavelength theta_R theta_S : float64)
    (out : stdout) :
  fne0 wavelength = true →
  ∃ P, phase_diff X Y wavelength theta_R theta_S out = (Return P, out)
       ∧ (same_shape X Y → same_shape X P)
       ∧ ∀ i j p, item P i j = Some p ↔
           ∃ x y, item X i j = Some x ∧ item Y i j = Some y
                  ∧ p = phase_at wavelength theta_R theta_S x y.
Proof.
  intros Hw. unfold phase_diff.
  eexists. split; [|split].
  - unfold mbind, py_mbind, py_bind. rewrite py_truediv_ne0 by exact Hw.
    reflexivity.
  - intros HXY.
    apply same_shape_trans with (B := ufunc (fmul (fsub
      (fmul (np_div (fmul (Fin 2) np_pi) wavelength) (np_sin (np_deg2rad theta_R)))
      (fmul (np_div (fmul (Fin 2) np_pi) wavelength) (np_sin (np_deg2rad theta_S))))) X).
    + apply same_shape_ufunc.
    + apply same_shape_ufunc2.
      eapply same_shape_trans; [apply same_shape_sym, same_shape_ufunc|].
      eapply same_shape_trans; [exact HXY | apply same_shape_ufunc].
  - intros i j p. rewrite item_ufunc2. setoid_rewrite item_ufunc.
    unfold phase_at, wave_number. split.
    + intros (a & b & Ha & Hb & ->).
      destruct (item X i j) as [x|]; [|discriminate].
      destruct (item Y i j) as [y|]; [|discriminate].
      injection Ha as <-. injection Hb as <-. eauto.
    + intros (x & y & -> & -> & ->). simpl. eauto.
Qed.

Lemma calculate_intensity_returns (X Y : ndarray)
    (wavelength theta_R theta_S : float64) (out : stdout) :
  fne0 wavelength = true →
  ∃ I, calculate_intensity X Y wavelength theta_R theta_S out = (Return I, out)
       ∧ (same_shape X Y → same_shape X I)
       ∧ ∀ i j e, item I i j = Some e ↔
           ∃ x y, item X i j = Some x ∧ item Y i j = Some y
                  ∧ e = intensity_at wavelength theta_R theta_S x y.
Proof.
  intros Hw.
  destruct (phase_diff_returns X Y wavelength theta_R theta_S out Hw)
    as (P & HP & Hshape & Hitem).
  unfold calculate_intensity.
  eexists. split; [|split].
  - unfold mbind, py_mbind, py_bind. rewrite HP. reflexivity.
  - intros HXY.
    eapply same_shape_trans; [exact (Hshape HXY)|].
    eapply same_shape_trans; [apply same_shape_ufunc|].
    eapply same_shape_trans; apply same_shape_ufunc.
  - intros i j e. rewrite !item_ufunc. unfold intensity_at. split.
    + destruct (item P i j) as [p|] eqn:Hp; [|discriminate].
      apply Hitem in Hp as (x & y & Hx & Hy & ->).
      intros [= <-]. eauto.
    + intros (x & y & Hx & Hy & ->).
      assert (Hp : item P i j = Some (phase_at wavelength theta_R theta_S x y))
        by (apply Hitem; eauto).
      rewrite Hp. reflexivity.
Qed.

Lemma calculate_intensity_raises (X Y : ndarray) (theta_R theta_S : float64)
    (out : stdout) :
  calculate_intensity X Y (Fin 0) theta_R theta_S out
  = (Raise ZeroDivisionError, out).
Proof.
  unfold calculate_intensity, phase_diff, mbind, py_mbind, py_bind.
  rewrite py_truediv_zero. reflexivity.
Qed.

(** A run that returns had a non-zero wavelength and printed nothing. *)
Lemma calculate_intensity_inv (X Y : ndarray)
    (wavelength theta_R theta_S : float64) (out out' : stdout) (I : ndarray) :
  calculate_intensity X Y wavelength theta_R theta_S out = (Return I, out') →
  fne0 wavelength = true ∧ out' = out.
Proof.
  intros Hrun. destruct (fne0 wavelength) eqn:Hw.
  - destruct (calculate_intensity_returns X Y wavelength theta_R theta_S out Hw)
      as (I' & HI' & _).
    rewrite HI' in Hrun. injection Hrun as _ <-. auto.
  - apply fne0_false in Hw. subst wavelength.
    rewrite calculate_intensity_raises in Hrun. discriminate.
Qed.

(** [(cos(phase) + 1)^2] is NaN or lies between 0 and 4. *)
Lemma intensity_value_range (phase : float64) :
  let e := fpow2 (fadd (np_cos phase) (Fin 1)) in
  (e = NaN ∧ ¬ is_finite phase) ∨ (∃ r, e = Fin r ∧ 0 <= r <= 4 ∧ is_finite phase).
Proof.
  destruct phase as [r| | |]; simpl; try (left; tauto).
  right. exists ((cos r + 1) * (cos r + 1)).
  pose proof (COS_bound r). repeat split; nra.
Qed.

(** The wave number of a wavelength other than 0 and NaN is finite. *)
Lemma wave_number_finite (wavelength : float64) :
  fne0 wavelength = true → ¬ is_nan wavelength →
  ∃ k, wave_number wavelength = Fin k.
Proof.
  intros Hw Hnan. unfold wave_number.
  destruct wavelength as [l| | |]; simpl in *; try (eexists; reflexivity).
  - destruct (Req_dec_T l 0); [discriminate | eexists; reflexivity].
  - tauto.
Qed.

(** With equal angles the phase difference vanishes, as long as the two
    wave-vector components are finite numbers. *)
Lemma phase_at_equal_angles (wavelength theta x y : float64) :
  is_finite (fmul (wave_number wavelength) (np_sin (np_deg2rad theta))) →
  is_finite (fmul (wave_number wavelength) (np_cos (np_deg2rad theta))) →
  is_finite x → is_finite y →
  phase_at wavelength theta theta x y = Fin 0.
Proof.
  unfold phase_at. cbv zeta.
  destruct (fmul (wave_number wavelength) (np_sin (np_deg2rad theta))) as [a| | |],
    (fmul (wave_number wavelength) (np_cos (np_deg2rad theta))) as [b| | |],
    x as [x| | |], y as [y| | |]; simpl; try tauto.
  intros _ _ _ _. f_equal; ring.
Qed.

(** The intensity is computed from the phase difference, element by
    element. *)
Lemma calculate_intensity_phase (X Y : ndarray)
    (wavelength theta_R theta_S : float64) (out out' : stdout) (I : ndarray) :
  calculate_intensity X Y wavelength theta_R theta_S out = (Return I, out') →
  ∃ P, phase_diff X Y wavelength theta_R theta_S out = (Return P, out')
       ∧ I = ufunc fpow2 (ufunc (λ c, fadd c (Fin 1)) (ufunc np_cos P)).
Proof.
  unfold calculate_intensity, mbind, py_mbind, py_bind.
  destruct (phase_diff X Y wavelength theta_R theta_S out) as [[P | e] out1];
    [|discriminate].
  intros [= <- <-]. eauto.
Qed.

(** ** Properties of the intensity field *)

(** C1 (as amended).  For grids [X] and [Y] of one shape, every wavelength
    other than zero and every pair of angles, [calculate_intensity] raises
    nothing, prints nothing and returns an array of the shape of [X] and
    [Y]; its element at an index is [(cos(phase_diff) + 1)^2] for the phase
    difference [(k_Rx - k_Sx)*x + (k_Rz - k_Sz)*y] at the elements [x] of
    [X] and [y] of [Y] at that index, and is NaN or non-negative. *)
Theorem calculate_intensity_defined (X Y : ndarray)
    (wavelength theta_R theta_S : float64) (out : stdout) :
  same_shape X Y →
  fne0 wavelength = true →
  ∃ I, calculate_intensity X Y wavelength theta_R theta_S out = (Return I, out)
       ∧ same_shape X I ∧ same_shape Y I
       ∧ ∀ i j e, item I i j = Some e →
           ∃ x y, item X i j = Some x ∧ item Y i j = Some y
                  ∧ e = intensity_at wavelength theta_R theta_S x y
                  ∧ (e = NaN ∨ fle (Fin 0) e).
Proof.
  intros HXY Hw.
  destruct (calculate_intensity_returns X Y wavelength theta_R theta_S out Hw)
    as (I & HI & Hshape & Hitem).
  exists I. repeat split.
  - exact HI.
  - auto.
  - eapply same_shape_trans; [apply same_shape_sym; exact HXY | auto].
  - intros i j e He. apply Hitem in He as (x & y & Hx & Hy & ->).
    exists x, y. repeat split; try assumption.
    unfold intensity_at.
    destruct (intensity_value_range (phase_at wavelength theta_R theta_S x y))
      as [[-> _] | (r & -> & Hr & _)]; [left; reflexivity | right; simpl; lra].
Qed.

Lemma calculate_intensity_defined_witness :
  ∃ I, calculate_intensity [[Fin 0; Fin 1]] [[Fin 0; Fin 0]]
         (Fin (1/2)) (Fin 30) (Fin (-30)) [] = (Return I, [])
       ∧ same_shape [[Fin 0; Fin 1]] I ∧ same_shape [[Fin 0; Fin 0]] I
       ∧ ∀ i j e, item I i j = Some e →
           ∃ x y, item [[Fin 0; Fin 1]] i j = Some x
                  ∧ item [[Fin 0; Fin 0]] i j = Some y
                  ∧ e = intensity_at (Fin (1/2)) (Fin 30) (Fin (-30)) x y
                  ∧ (e = NaN ∨ fle (Fin 0) e).
Proof.
  apply (calculate_intensity_defined [[Fin 0; Fin 1]] [[Fin 0; Fin 0]]
           (Fin (1/2)) (Fin 30) (Fin (-30)) []).
  - repeat constructor.
  - apply fne0_Fin. lra.
Defined.

(** C1 as stated fails twice: a zero wavelength makes [2 * np.pi /
    wavelength] raise [ZeroDivisionError], and an angle that is NaN makes
    the intensity NaN, which is not non-negative. *)
Lemma calculate_intensity_not_always_defined :
  calculate_intensity [[Fin 0]] [[Fin 0]] (Fin 0) (Fin 30) (Fin (-30)) []
  = (Raise ZeroDivisionError, [])
  ∧ calculate_intensity [[Fin 0]] [[Fin 0]] (Fin 1) NaN (Fin 0) []
    = (Return [[NaN]], [])
  ∧ ¬ fle (Fin 0) NaN.
Proof.
  split; [apply calculate_intensity_raises|]. split; [|simpl; tauto].
  unfold calculate_intensity, phase_diff, mbind, py_mbind, py_bind.
  rewrite py_truediv_ne0 by (apply fne0_Fin; lra).
  change (fmul (Fin 2) np_pi) with (Fin (2 * PI)).
  rewrite np_div_Fin by lra. reflexivity.
Qed.

(** C5 (as amended).  For every wavelength other than zero and every
    angle used for both beams for which the two wave-vector components
    [k * sin(theta)] and [k * cos(theta)], as [calculate_intensity]
    computes them, are finite numbers, and for grids of one shape with
    finite coordinates, the phase difference is 0 at every grid point and
    the returned intensity is 4 at every grid point. *)
Theorem equal_angles_intensity_four (X Y : ndarray)
    (wavelength theta : float64) (out : stdout) :
  same_shape X Y →
  all_finite X → all_finite Y →
  fne0 wavelength = true →
  is_finite (fmul (wave_number wavelength) (np_sin (np_deg2rad theta))) →
  is_finite (fmul (wave_number wavelength) (np_cos (np_deg2rad theta))) →
  ∃ P I,
    phase_diff X Y wavelength theta theta out = (Return P, out)
    ∧ calculate_intensity X Y wavelength theta theta out = (Return I, out)
    ∧ same_shape X P ∧ same_shape X I
    ∧ (∀ i j p, item P i j = Some p → p = Fin 0)
    ∧ (∀ i j e, item I i j = Some e → e = Fin 4).
Proof.
  intros HXY HX HY Hw Hsin Hcos.
  destruct (phase_diff_returns X Y wavelength theta theta out Hw)
    as (P & HP & HshapeP & HitemP).
  destruct (calculate_intensity_returns X Y wavelength theta theta out Hw)
    as (I & HI & HshapeI & HitemI).
  exists P, I. repeat split; auto.
  - intros i j p Hp. apply HitemP in Hp as (x & y & Hx & Hy & ->).
    apply phase_at_equal_angles; eauto.
  - intros i j e He. apply HitemI in He as (x & y & Hx & Hy & ->).
    unfold intensity_at. rewrite phase_at_equal_angles by eauto.
    simpl. rewrite cos_0. f_equal; ring.
Qed.

Lemma equal_angles_intensity_four_witness :
  ∃ P I,
    phase_diff [[Fin (-1); Fin 0]] [[Fin 2; Fin 2]] (Fin (1/2))
      (Fin 30) (Fin 30) [] = (Return P, [])
    ∧ calculate_intensity [[Fin (-1); Fin 0]] [[Fin 2; Fin 2]] (Fin (1/2))
        (Fin 30) (Fin 30) [] = (Return I, [])
    ∧ same_shape [[Fin (-1); Fin 0]] P ∧ same_shape [[Fin (-1); Fin 0]] I
    ∧ (∀ i j p, item P i j = Some p → p = Fin 0)
    ∧ (∀ i j e, item I i j = Some e → e = Fin 4).
Proof.
  assert (Hk : wave_number (Fin (1/2)) = Fin (2 * PI / (1/2))).
  { unfold wave_number. change (fmul (Fin 2) np_pi) with (Fin (2 * PI)).
    apply np_div_Fin. lra. }
  apply (equal_angles_intensity_four [[Fin (-1); Fin 0]] [[Fin 2; Fin 2]]
           (Fin (1/2)) (Fin 30) []).
  - repeat constructor.
  - intros [|[|i]] [|[|[|j]]] e; simpl; intros [= <-]; exact I.
  - intros [|[|i]] [|[|[|j]]] e; simpl; intros [= <-]; exact I.
  - apply fne0_Fin. lra.
  - rewrite Hk. exact I.
  - rewrite Hk. exact I.
Defined.

(** C5 as stated fails at the wavelength 0: with equal angles the call
    raises [ZeroDivisionError], so that no phase difference and no
    intensity is computed at all.  It fails also when a wave-vector
    component is not finite: with both angles infinite the sine is NaN and
    so is the intensity. *)
Lemma equal_angles_zero_wavelength_raises :
  phase_diff [[Fin 0]] [[Fin 0]] (Fin 0) (Fin 30) (Fin 30) []
  = (Raise ZeroDivisionError, [])
  ∧ calculate_intensity [[Fin 0]] [[Fin 0]] (Fin 0) (Fin 30) (Fin 30) []
    = (Raise ZeroDivisionError, [])
  ∧ (¬ ∃ I out', calculate_intensity [[Fin 0]] [[Fin 0]] (Fin 0) (Fin 30) (Fin 30) []
                 = (Return I, out')
                 ∧ item I 0%nat 0%nat = Some (Fin 4))
  ∧ calculate_intensity [[Fin 0]] [[Fin 0]] (Fin 1) PInf PInf []
    = (Return [[NaN]], []).
Proof.
  assert (H : calculate_intensity [[Fin 0]] [[Fin 0]] (Fin 0) (Fin 30) (Fin 30) []
              = (Raise ZeroDivisionError, []))
    by apply calculate_intensity_raises.
  split; [|split; [|split]].
  - unfold phase_diff, mbind, py_mbind, py_bind.
    rewrite py_truediv_zero. reflexivity.
  - exact H.
  - intros (I & out' & HI & _). rewrite H in HI. discriminate.
  - unfold calculate_intensity, phase_diff, mbind, py_mbind, py_bind.
    rewrite py_truediv_ne0 by (apply fne0_Fin; lra).
    change (fmul (Fin 2) np_pi) with (Fin (2 * PI)).
    rewrite np_div_Fin by lra.
    change (np_deg2rad PInf) with (signed_inf (PI / 180)). unfold signed_inf.
    pose proof PI_RGT_0 as Hpi.
    case_dec; try reflexivity; exfalso; lra.
Qed.

(** C9 (as amended).  Every element of an array returned by
    [calculate_intensity] is NaN or lies in the closed interval [0, 4]: it
    lies in [0, 4] when the phase difference at its grid point is a finite
    number, and is NaN when that phase difference is infinite or NaN. *)
Theorem intensity_in_0_4 (X Y : ndarray)
    (wavelength theta_R theta_S : float64) (out out' : stdout) (I : ndarray) :
  calculate_intensity X Y wavelength theta_R theta_S out = (Return I, out') →
  ∃ P, phase_diff X Y wavelength theta_R theta_S out = (Return P, out')
       ∧ ∀ i j e, item I i j = Some e →
           (e = NaN ∨ (fle (Fin 0) e ∧ fle e (Fin 4)))
           ∧ ∃ ph, item P i j = Some ph
                   ∧ (is_finite ph → fle (Fin 0) e ∧ fle e (Fin 4))
                   ∧ (¬ is_finite ph → e = NaN).
Proof.
  intros Hrun.
  destruct (calculate_intensity_phase _ _ _ _ _ _ _ _ Hrun) as (P & HP & ->).
  exists P. split; [exact HP|].
  intros i j e He. rewrite !item_ufunc in He.
  destruct (item P i j) as [ph|]; [|discriminate].
  simpl in He. injection He as <-.
  destruct (intensity_value_range ph) as [[Hnan Hnf] | (r & Hr & Hrange & Hfin)].
  - split; [left; exact Hnan|]. exists ph. split; [reflexivity|].
    split; [intros Hfin; contradiction | intros _; exact Hnan].
  - rewrite Hr. split; [right; simpl; lra|]. exists ph. split; [reflexivity|].
    split; [intros _; simpl; lra | intros Hnf; contradiction].
Qed.

Lemma intensity_in_0_4_witness :
  ∃ I P, calculate_intensity [[Fin 1]] [[Fin 2]] (Fin (1/2)) (Fin 30) (Fin (-30)) []
         = (Return I, [])
         ∧ phase_diff [[Fin 1]] [[Fin 2]] (Fin (1/2)) (Fin 30) (Fin (-30)) []
           = (Return P, [])
         ∧ ∀ i j e, item I i j = Some e →
             (e = NaN ∨ (fle (Fin 0) e ∧ fle e (Fin 4)))
             ∧ ∃ ph, item P i j = Some ph
                     ∧ (is_finite ph → fle (Fin 0) e ∧ fle e (Fin 4))
                     ∧ (¬ is_finite ph → e = NaN).
Proof.
  destruct (calculate_intensity_returns [[Fin 1]] [[Fin 2]] (Fin (1/2))
              (Fin 30) (Fin (-30)) []) as (I & HI & _).
  { apply fne0_Fin. lra. }
  destruct (intensity_in_0_4 [[Fin 1]] [[Fin 2]] (Fin (1/2)) (Fin 30) (Fin (-30))
              [] [] I HI) as (P & HP & Hall).
  exists I, P. auto.
Defined.

(** C9 as stated fails for an angle that is infinite: the sine and cosine
    of the angle are NaN, and so is the intensity, which is not in
    [0, 4]. *)
Lemma intensity_nan_outside_0_4 :
  calculate_intensity [[Fin 0]] [[Fin 0]] (Fin 1) (Fin 0) PInf []
  = (Return [[NaN]], [])
  ∧ ¬ (fle (Fin 0) NaN ∧ fle NaN (Fin 4)).
Proof.
  split; [|simpl; tauto].
  unfold calculate_intensity, phase_diff, mbind, py_mbind, py_bind.
  rewrite py_truediv_ne0 by (apply fne0_Fin; lra).
  change (fmul (Fin 2) np_pi) with (Fin (2 * PI)).
  rewrite np_div_Fin by lra.
  change (np_deg2rad PInf) with (signed_inf (PI / 180)). unfold signed_inf.
  pose proof PI_RGT_0 as Hpi.
  case_dec; try reflexivity; exfalso; lra.
Qed.

(** ** [calculate_grating_parameters]: when it returns, and what *)

(** With a non-zero [n_2] the function returns the record of its local
    variables, and prints nothing: the arcsine of NumPy returns NaN outside
    its domain instead of raising, so that neither [except ValueError]
    branch is ever entered. *)
Lemma calculate_grating_parameters_returns
    (wavelength theta_R theta_S n_1 n_2 : float64) (out : stdout) :
  fne0 n_2 = true →
  calculate_grating_parameters wavelength theta_R theta_S n_1 n_2 out
  = (Return (grating_record wavelength theta_R theta_S n_1 n_2), out).
Proof.
  intros Hn.
  unfold calculate_grating_parameters, mbind, py_mbind, py_bind,
    try_except_ValueError, mret, py_mret, py_ret.
  rewrite !py_truediv_ne0 by exact Hn.
  reflexivity.
Qed.

(** With [n_2] zero the Snell ratio [n_1 / n_2] raises. *)
Lemma calculate_grating_parameters_raises
    (wavelength theta_R theta_S n_1 : float64) (out : stdout) :
  calculate_grating_parameters wavelength theta_R theta_S n_1 (Fin 0) out
  = (Raise ZeroDivisionError, out).
Proof.
  unfold calculate_grating_parameters, mbind, py_mbind, py_bind,
    try_except_ValueError, mret, py_mret, py_ret.
  rewrite py_truediv_zero. reflexivity.
Qed.

Lemma calculate_grating_parameters_inv
    (wavelength theta_R theta_S n_1 n_2 : float64) (out out' : stdout)
    (p : grating_params) :
  calculate_grating_parameters wavelength theta_R theta_S n_1 n_2 out
  = (Return p, out') →
  fne0 n_2 = true
  ∧ p = grating_record wavelength theta_R theta_S n_1 n_2
  ∧ out' = out.
Proof.
  intros Hrun. destruct (fne0 n_2) eqn:Hn.
  - rewrite calculate_grating_parameters_returns in Hrun by exact Hn.
    injection Hrun as <- <-. auto.
  - apply fne0_false in Hn. subst n_2.
    rewrite calculate_grating_parameters_raises in Hrun. discriminate.
Qed.

(** ** Values at particular angles *)

Lemma sin_deg_90 : sin (90 * (PI / 180)) = 1.
Proof. replace (90 * (PI / 180)) with (PI / 2) by field. apply sin_PI2. Qed.

Lemma sin_deg_minus_90 : sin (-90 * (PI / 180)) = -1.
Proof.
  replace (-90 * (PI / 180)) with (- (PI / 2)) by field.
  rewrite sin_neg, sin_PI2. reflexivity.
Qed.

Lemma sin_deg_30 : sin (30 * (PI / 180)) = 1 / 2.
Proof. replace (30 * (PI / 180)) with (PI / 6) by field. apply sin_PI6. Qed.

Lemma sin_deg_minus_30 : sin (-30 * (PI / 180)) = - (1 / 2).
Proof.
  replace (-30 * (PI / 180)) with (- (PI / 6)) by field.
  rewrite sin_neg, sin_PI6. reflexivity.
Qed.


Lemma sin_deg_0 : sin (0 * (PI / 180)) = 0.
Proof. rewrite Rmult_0_l. apply sin_0. Qed.

Lemma cos_deg_0 : cos (0 * (PI / 180)) = 1.
Proof. rewrite Rmult_0_l. apply cos_0. Qed.

Lemma asin_minus_half : asin (- (1 / 2)) = - (PI / 6).
Proof.
  rewrite asin_opp. f_equal.
  rewrite <- sin_PI6. apply asin_sin.
  pose proof PI_RGT_0. lra.
Qed.


Lemma fadd_NaN_r (x : float64) : fadd x NaN = NaN.
Proof. destruct x; reflexivity. Qed.

Lemma fsub_Fin (a b : R) : fsub (Fin a) (Fin b) = Fin (a - b).
Proof. reflexivity. Qed.

(** *** wavelength 1, theta_R = -90, theta_S = 90, n_1 = 1/2:
    the Bragg condition in air has no solution *)

Lemma d_air_opposite_beams : d_air (Fin 1) (Fin (-90)) (Fin 90) = Fin (1 / 2).
Proof.
  unfold d_air, d_y_air, freq_y_air, psi_air.
  rewrite !np_deg2rad_Fin. simpl np_sin. rewrite sin_deg_90, sin_deg_minus_90.
  rewrite fsub_Fin, np_div_Fin by lra.
  rewrite fne0_Fin by lra. rewrite np_div_Fin by lra.
  simpl fadd. rewrite np_div_Fin by lra. rewrite np_deg2rad_Fin. simpl.
  replace ((90 + -90) / 2 * (PI / 180)) with 0 by field.
  rewrite cos_0. f_equal; field.
Qed.

Lemma bragg_arg_opposite_beams :
  bragg_arg (Fin 1) (Fin (1 / 2)) (d_air (Fin 1) (Fin (-90)) (Fin 90)) = Fin 2.
Proof.
  rewrite d_air_opposite_beams. unfold bragg_arg. simpl fmul.
  rewrite np_div_Fin by lra. f_equal; field.
Qed.

(** *** wavelength 1/2, theta_R = 30, theta_S = -30 *)

Lemma freq_y_air_symmetric : freq_y_air (Fin (1 / 2)) (Fin 30) (Fin (-30)) = Fin (-2).
Proof.
  unfold freq_y_air. rewrite !np_deg2rad_Fin. simpl np_sin.
  rewrite sin_deg_30, sin_deg_minus_30, fsub_Fin, np_div_Fin by lra.
  f_equal; field.
Qed.



Lemma d_y_air_symmetric : d_y_air (Fin (1 / 2)) (Fin 30) (Fin (-30)) = Fin (- (1 / 2)).
Proof.
  unfold d_y_air. rewrite freq_y_air_symmetric.
  rewrite fne0_Fin by lra. rewrite np_div_Fin by lra. f_equal; field.
Qed.


Lemma psi_air_symmetric : psi_air (Fin 30) (Fin (-30)) = Fin 0.
Proof.
  unfold psi_air. simpl fadd. rewrite np_div_Fin by lra. f_equal; field.
Qed.

Lemma d_air_symmetric : d_air (Fin (1 / 2)) (Fin 30) (Fin (-30)) = Fin (- (1 / 2)).
Proof.
  unfold d_air. rewrite d_y_air_symmetric, psi_air_symmetric.
  rewrite np_deg2rad_Fin. simpl. rewrite cos_deg_0. f_equal; field.
Qed.

Lemma theta_bragg_air_symmetric :
  theta_bragg (Fin (1 / 2)) (Fin 1) (d_air (Fin (1 / 2)) (Fin 30) (Fin (-30)))
  = Fin (-30).
Proof.
  unfold theta_bragg, bragg_arg. rewrite d_air_symmetric. simpl fmul.
  rewrite np_div_Fin by lra.
  replace (1 / 2 / (2 * 1 * - (1 / 2))) with (- (1 / 2)) by field.
  rewrite np_arcsin_Fin by lra. rewrite asin_minus_half, np_rad2deg_Fin.
  f_equal. pose proof PI_RGT_0. field. lra.
Qed.

(** *** wavelength 1/2, theta_R = 90, theta_S = 0, from n_1 = 3/2 into
    n_2 = 1: the reference beam is beyond the critical angle *)

Lemma psi_R_rad_beyond_critical :
  psi_R_rad (Fin 90) (Fin (3 / 2)) (Fin 1) = NaN.
Proof.
  unfold psi_R_rad. rewrite np_div_Fin by lra.
  rewrite np_deg2rad_Fin. simpl. rewrite sin_deg_90.
  case_dec; try reflexivity. lra.
Qed.

Lemma psi_S_rad_beyond_critical :
  psi_S_rad (Fin 0) (Fin (3 / 2)) (Fin 1) = Fin 0.
Proof.
  unfold psi_S_rad. rewrite np_div_Fin by lra.
  rewrite np_deg2rad_Fin. simpl fmul. rewrite sin_deg_0.
  rewrite np_arcsin_Fin by lra.
  replace (3 / 2 / 1 * 0) with 0 by field. rewrite asin_0. reflexivity.
Qed.

Lemma freq_y_medium_beyond_critical :
  freq_y_medium (Fin (1 / 2)) (Fin 90) (Fin 0) (Fin (3 / 2)) (Fin 1) = NaN.
Proof.
  unfold freq_y_medium.
  rewrite psi_R_rad_beyond_critical, psi_S_rad_beyond_critical. reflexivity.
Qed.

(** ** Properties of the grating parameters *)



(** C3, at wavelength 1, theta_R = -90, theta_S = 90, n_1 = 1/2, n_2 = 1.
    The arcsine argument of the Bragg angle in air is 2, outside [-1, 1];
    the function returns the full record with NaN as that Bragg angle, and
    standard output is left as it was: no diagnostic message is printed. *)
Theorem bragg_domain_violation_prints_nothing (out : stdout) :
  bragg_arg (Fin 1) (Fin (1 / 2)) (d_air (Fin 1) (Fin (-90)) (Fin 90)) = Fin 2
  ∧ ∃ p, calculate_grating_parameters (Fin 1) (Fin (-90)) (Fin 90)
           (Fin (1 / 2)) (Fin 1) out = (Return p, out)
         ∧ bragg_angle (air p) = NaN.
Proof.
  split; [apply bragg_arg_opposite_beams|].
  eexists. split.
  - apply calculate_grating_parameters_returns, fne0_Fin. lra.
  - simpl. unfold theta_bragg. rewrite bragg_arg_opposite_beams.
    simpl. case_dec; try reflexivity. lra.
Qed.

(** No run of [calculate_grating_parameters] prints anything. *)
Lemma calculate_grating_parameters_silent
    (wavelength theta_R theta_S n_1 n_2 : float64) (out : stdout) :
  (calculate_grating_parameters wavelength theta_R theta_S n_1 n_2 out).2 = out.
Proof.
  destruct (fne0 n_2) eqn:Hn.
  - rewrite calculate_grating_parameters_returns by exact Hn. reflexivity.
  - apply fne0_false in Hn. subst n_2.
    rewrite calculate_grating_parameters_raises. reflexivity.
Qed.








(** C10 (as amended).  In both sub-records of a returned result each of
    period, period_y, period_z, frequency, frequency_y and frequency_z is
    NaN or non-negative; tilt_angle and bragg_angle are the computed
    angles themselves, with no absolute value, and each of them is negative
    for some inputs. *)
Theorem abs_fields_nonnegative_or_nan :
  (∀ (wavelength theta_R theta_S n_1 n_2 : float64) (out out' : stdout)
     (p : grating_params),
     calculate_grating_parameters wavelength theta_R theta_S n_1 n_2 out
     = (Return p, out') →
     (∀ m x, (m = air p ∨ m = medium p) → x ∈ abs_fields m →
        x = NaN ∨ fle (Fin 0) x)
     ∧ tilt_angle (air p) = psi_air theta_R theta_S
     ∧ tilt_angle (medium p) = psi_medium theta_R theta_S n_1 n_2
     ∧ bragg_angle (air p)
       = theta_bragg wavelength n_1 (d_air wavelength theta_R theta_S)
     ∧ bragg_angle (medium p)
       = theta_bragg wavelength n_2
           (d_medium wavelength theta_R theta_S n_1 n_2))
  ∧ (∃ p, calculate_grating_parameters (Fin (1 / 2)) (Fin (-30)) (Fin (-30))
            (Fin 1) (Fin (3 / 2)) [] = (Return p, [])
          ∧ flt (tilt_angle (air p)) (Fin 0))
  ∧ (∃ p, calculate_grating_parameters (Fin (1 / 2)) (Fin 30) (Fin (-30))
            (Fin 1) (Fin (3 / 2)) [] = (Return p, [])
          ∧ flt (bragg_angle (air p)) (Fin 0)).
Proof.
  split; [|split].
  - intros wavelength theta_R theta_S n_1 n_2 out out' p Hrun.
    apply calculate_grating_parameters_inv in Hrun as (_ & -> & _).
    split; [|repeat split].
    intros m x [-> | ->] Hx; unfold abs_fields in Hx; simpl in Hx;
      repeat (apply elem_of_cons in Hx as [-> | Hx]; [apply np_abs_nonneg|]);
      apply elem_of_nil in Hx; contradiction.
  - eexists. split.
    + apply calculate_grating_parameters_returns, fne0_Fin. lra.
    + simpl. unfold psi_air. simpl fadd. rewrite np_div_Fin by lra.
      simpl. lra.
  - eexists. split.
    + apply calculate_grating_parameters_returns, fne0_Fin. lra.
    + simpl. rewrite theta_bragg_air_symmetric. simpl. lra.
Qed.

Lemma abs_fields_nonnegative_or_nan_witness :
  period (air (grating_record (Fin (1 / 2)) (Fin 30) (Fin (-30))
                 (Fin 1) (Fin (3 / 2)))) = NaN
  ∨ fle (Fin 0) (period (air (grating_record (Fin (1 / 2)) (Fin 30)
                                (Fin (-30)) (Fin 1) (Fin (3 / 2))))).
Proof.
  refine (proj1 (proj1 abs_fields_nonnegative_or_nan (Fin (1 / 2)) (Fin 30)
                   (Fin (-30)) (Fin 1) (Fin (3 / 2)) [] [] _ _) _ _
            (or_introl eq_refl) _).
  - apply calculate_grating_parameters_returns, fne0_Fin. lra.
  - unfold abs_fields. apply elem_of_cons. left. reflexivity.
Defined.

(** C10 as stated fails beyond the critical angle (wavelength 1/2,
    theta_R = 90, theta_S = 0, n_1 = 3/2, n_2 = 1): the ['medium']
    period_y is NaN, which is not non-negative. *)
Lemma period_nan_beyond_critical :
  ∃ p, calculate_grating_parameters (Fin (1 / 2)) (Fin 90) (Fin 0)
         (Fin (3 / 2)) (Fin 1) [] = (Return p, [])
       ∧ period_y (medium p) = NaN
       ∧ ¬ fle (Fin 0) (period_y (medium p)).
Proof.
  eexists. split.
  - apply calculate_grating_parameters_returns, fne0_Fin. lra.
  - simpl. unfold d_y_medium. rewrite freq_y_medium_beyond_critical. simpl.
    split; [reflexivity | tauto].
Qed.

(** ** Where the pictures are saved *)

Lemma py_bind_Return {A B} (m : py A) (k : A → py B) (out out' : stdout) (b : B) :
  (m ≫= k) out = (Return b, out') →
  ∃ a out1, m out = (Return a, out1) ∧ k a out1 = (Return b, out').
Proof.
  unfold mbind, py_mbind, py_bind.
  destruct (m out) as [[a|e] out1]; [eauto | discriminate].
Qed.

Lemma py_truediv_Return (x y z : float64) (out out' : stdout) :
  py_truediv x y out = (Return z, out') → z = np_div x y ∧ out' = out.
Proof.
  unfold py_truediv. destruct (fne0 y); [|discriminate].
  intros [= <- <-]. auto.
Qed.

Lemma create_table_image_files (params : grating_params) (n_1 n_2 : float64)
    (s s' : pyplot) (out out' : stdout) :
  create_table_image params n_1 n_2 s out = (Return s', out') →
  files s' = <["results_table.png" := table_figure params n_1 n_2]> (files s).
Proof. intros [= <- _]. reflexivity. Qed.

Lemma create_graphs_files (wavelength theta_R theta_S n_1 n_2 : float64)
    (X Y I_air I_medium : ndarray) (s s' : pyplot) (out out' : stdout) :
  create_graphs wavelength theta_R theta_S n_1 n_2 X Y I_air I_medium s out
  = (Return s', out') →
  files s'
  = <["results_table.png" :=
        graphs_figure wavelength theta_R theta_S n_1 n_2 X Y I_air I_medium]>
      (files s).
Proof.
  unfold create_graphs. intros Hrun.
  repeat (apply py_bind_Return in Hrun as (? & ? & [-> ->]%py_truediv_Return & Hrun)).
  injection Hrun as <- _. reflexivity.
Qed.

(** C4, on the code.  The two rendering routines save to one and the same
    path: a run of the script that returns has changed the working
    directory only at ["results_table.png"], which holds the figure with
    the plots and not the table, written first and replaced.  Starting from
    an empty directory the run leaves one file, not two. *)
Theorem script_leaves_one_file (X Y : ndarray)
    (wavelength theta_R theta_S n_1 n_2 : float64) (s s' : pyplot)
    (out out' : stdout) :
  script X Y wavelength theta_R theta_S n_1 n_2 s out = (Return s', out') →
  ∃ I_air I_medium,
    files s'
    = <["results_table.png" :=
          graphs_figure wavelength theta_R theta_S n_1 n_2 X Y I_air I_medium]>
        (files s)
    ∧ (∀ params, files s' !! "results_table.png"
                 ≠ Some (table_figure params n_1 n_2))
    ∧ (files s = ∅ → size (files s') = 1%nat).
Proof.
  unfold script. intros Hrun.
  apply py_bind_Return in Hrun as (I_air & out1 & _ & Hrun).
  apply py_bind_Return in Hrun as (wm & out2 & _ & Hrun).
  apply py_bind_Return in Hrun as (I_medium & out3 & _ & Hrun).
  apply py_bind_Return in Hrun as (params & out4 & _ & Hrun).
  apply py_bind_Return in Hrun as (s1 & out5 & Htable & Hgraphs).
  apply create_table_image_files in Htable.
  apply create_graphs_files in Hgraphs.
  rewrite Htable, insert_insert_eq in Hgraphs.
  exists I_air, I_medium. split; [exact Hgraphs|]. rewrite Hgraphs. split.
  - intros params'. rewrite lookup_insert_eq. discriminate.
  - intros ->. rewrite insert_empty. apply map_size_singleton.
Qed.

Lemma script_leaves_one_file_witness :
  ∃ s', script [[Fin 0]] [[Fin 0]] (Fin (1 / 2)) (Fin 30) (Fin (-30))
          (Fin 1) (Fin (3 / 2)) {| figures := []; files := ∅ |} []
        = (Return s', [])
        ∧ size (files s') = 1%nat.
Proof.
  assert (H1 : fne0 (Fin 1) = true) by (apply fne0_Fin; lra).
  assert (H2 : fne0 (Fin (3 / 2)) = true) by (apply fne0_Fin; lra).
  assert (Hw : fne0 (Fin (1 / 2)) = true) by (apply fne0_Fin; lra).
  assert (Hm : fne0 (np_div (Fin (1 / 2)) (Fin (3 / 2))) = true).
  { rewrite np_div_Fin by lra. apply fne0_Fin. lra. }
  destruct (calculate_intensity_returns [[Fin 0]] [[Fin 0]] (Fin (1 / 2))
              (Fin 30) (Fin (-30)) [] Hw) as (I_air & HI_air & _).
  destruct (calculate_intensity_returns [[Fin 0]] [[Fin 0]]
              (np_div (Fin (1 / 2)) (Fin (3 / 2)))
              (Fin 30) (Fin (-30)) [] Hm) as (I_medium & HI_medium & _).
  assert (Hrun : ∃ s', script [[Fin 0]] [[Fin 0]] (Fin (1 / 2)) (Fin 30)
                         (Fin (-30)) (Fin 1) (Fin (3 / 2))
                         {| figures := []; files := ∅ |} [] = (Return s', [])).
  { eexists. unfold script, mbind, py_mbind, py_bind.
    rewrite HI_air, py_truediv_ne0 by exact H2.
    rewrite HI_medium, calculate_grating_parameters_returns by exact H2.
    unfold create_table_image, create_graphs, mbind, py_mbind, py_bind,
      mret, py_mret, py_ret.
    rewrite !py_truediv_ne0 by assumption. reflexivity. }
  destruct Hrun as [s' Hrun]. exists s'. split; [exact Hrun|].
  destruct (script_leaves_one_file _ _ _ _ _ _ _ _ _ _ _ Hrun)
    as (_ & _ & _ & _ & Hsize).
  apply Hsize. reflexivity.
Defined.

(** ** Further properties: symmetries of the intensity field *)

Lemma signed_inf_opp (r : R) : signed_inf (- r) = fneg (signed_inf r).
Proof. unfold signed_inf. case_dec; try reflexivity; exfalso; lra. Qed.

Lemma fneg_involutive (x : float64) : fneg (fneg x) = x.
Proof. destruct x; simpl; try reflexivity. f_equal; lra. Qed.

Lemma fsub_swap (a b : float64) : fsub b a = fneg (fsub a b).
Proof.
  destruct a, b; simpl; try reflexivity. f_equal; lra.
Qed.

Lemma fmul_fneg_l (c x : float64) : fmul (fneg c) x = fneg (fmul c x).
Proof.
  destruct c as [c| | |], x as [x| | |]; simpl; try reflexivity;
    rewrite ?signed_inf_opp, ?fneg_involutive; try reflexivity.
  f_equal; lra.
Qed.

Lemma fmul_fneg_r (c x : float64) : fmul c (fneg x) = fneg (fmul c x).
Proof.
  destruct c as [c| | |], x as [x| | |]; simpl; try reflexivity;
    rewrite ?signed_inf_opp, ?fneg_involutive; try reflexivity.
  f_equal; lra.
Qed.

Lemma fadd_fneg (u v : float64) : fadd (fneg u) (fneg v) = fneg (fadd u v).
Proof. destruct u, v; simpl; try reflexivity. f_equal; lra. Qed.

Lemma np_cos_fneg (x : float64) : np_cos (fneg x) = np_cos x.
Proof. destruct x; simpl; try reflexivity. rewrite cos_neg. reflexivity. Qed.

Lemma phase_at_swap (wavelength theta_R theta_S x y : float64) :
  phase_at wavelength theta_S theta_R x y
  = fneg (phase_at wavelength theta_R theta_S x y).
Proof.
  unfold phase_at. cbv zeta.
  rewrite <- fadd_fneg, <- !fmul_fneg_l, <- !fsub_swap. reflexivity.
Qed.

Lemma phase_at_reflect (wavelength theta_R theta_S x y : float64) :
  phase_at wavelength theta_R theta_S (fneg x) (fneg y)
  = fneg (phase_at wavelength theta_R theta_S x y).
Proof.
  unfold phase_at. cbv zeta.
  rewrite <- fadd_fneg, <- !fmul_fneg_r. reflexivity.
Qed.

Lemma fmap_zip_with {A B C D} (g : C → D) (f : A → B → C)
    (l : list A) (k : list B) :
  g <$> zip_with f l k = zip_with (λ a b, g (f a b)) l k.
Proof.
  revert k. induction l as [|a l IH]; intros [|b k]; simpl; try reflexivity.
  rewrite IH. reflexivity.
Qed.

Lemma ufunc_ufunc2 (g : float64 → float64) (f : float64 → float64 → float64)
    (A B : ndarray) :
  ufunc g (ufunc2 f A B) = ufunc2 (λ a b, g (f a b)) A B.
Proof.
  unfold ufunc, ufunc2. rewrite fmap_zip_with.
  apply zip_with_ext; try reflexivity. intros. apply fmap_zip_with.
Qed.

Lemma ufunc2_ufunc (f : float64 → float64 → float64) (g h : float64 → float64)
    (A B : ndarray) :
  ufunc2 f (ufunc g A) (ufunc h B) = ufunc2 (λ a b, f (g a) (h b)) A B.
Proof.
  unfold ufunc, ufunc2. rewrite zip_with_fmap_l, zip_with_fmap_r.
  apply zip_with_ext; try reflexivity. intros.
  rewrite zip_with_fmap_l, zip_with_fmap_r. reflexivity.
Qed.

Lemma ufunc2_ext (f g : float64 → float64 → float64) (A B : ndarray) :
  (∀ a b, f a b = g a b) → ufunc2 f A B = ufunc2 g A B.
Proof.
  intros Hfg. unfold ufunc2.
  apply zip_with_ext; try reflexivity. intros.
  apply zip_with_ext; auto.
Qed.

(** The array [calculate_intensity] returns, in one pass over the grids. *)
Lemma calculate_intensity_fused (X Y : ndarray)
    (wavelength theta_R theta_S : float64) (out : stdout) :
  fne0 wavelength = true →
  calculate_intensity X Y wavelength theta_R theta_S out
  = (Return (ufunc2 (intensity_at wavelength theta_R theta_S) X Y), out).
Proof.
  intros Hw.
  unfold calculate_intensity, phase_diff, mbind, py_mbind, py_bind.
  rewrite py_truediv_ne0 by exact Hw.
  unfold mret, py_mret, py_ret. do 2 f_equal.
  rewrite ufunc2_ufunc, !ufunc_ufunc2. reflexivity.
Qed.

Lemma calculate_intensity_zero (X Y : ndarray) (wavelength theta_R theta_S : float64)
    (out : stdout) :
  fne0 wavelength = false →
  calculate_intensity X Y wavelength theta_R theta_S out
  = (Raise ZeroDivisionError, out).
Proof.
  intros Hw. apply fne0_false in Hw. subst. apply calculate_intensity_raises.
Qed.

(** X1.  Exchanging the reference and the signal beam does not change the
    result of [calculate_intensity], whatever the arguments: the same
    exception, or the same array. *)
Theorem calculate_intensity_beam_swap (X Y : ndarray)
    (wavelength theta_R theta_S : float64) (out : stdout) :
  calculate_intensity X Y wavelength theta_S theta_R out
  = calculate_intensity X Y wavelength theta_R theta_S out.
Proof.
  destruct (fne0 wavelength) eqn:Hw.
  - rewrite !calculate_intensity_fused by exact Hw. do 2 f_equal.
    apply ufunc2_ext. intros x y. unfold intensity_at.
    rewrite phase_at_swap, np_cos_fneg. reflexivity.
  - rewrite !calculate_intensity_zero by exact Hw. reflexivity.
Qed.

(** X2.  The intensity field is symmetric about the origin of the grid:
    negating every coordinate of both grids does not change the result of
    [calculate_intensity]. *)
Theorem calculate_intensity_central_symmetry (X Y : ndarray)
    (wavelength theta_R theta_S : float64) (out : stdout) :
  calculate_intensity (ufunc fneg X) (ufunc fneg Y) wavelength theta_R theta_S out
  = calculate_intensity X Y wavelength theta_R theta_S out.
Proof.
  destruct (fne0 wavelength) eqn:Hw.
  - rewrite !calculate_intensity_fused by exact Hw. do 2 f_equal.
    rewrite ufunc2_ufunc. apply ufunc2_ext. intros x y. unfold intensity_at.
    rewrite phase_at_reflect, np_cos_fneg. reflexivity.
  - rewrite !calculate_intensity_zero by exact Hw. reflexivity.
Qed.

Lemma phase_at_coeff (wavelength theta_R theta_S x y : float64) :
  phase_at wavelength theta_R theta_S x y
  = fadd (fmul (phase_coeff_X wavelength theta_R theta_S) x)
         (fmul (phase_coeff_Y wavelength theta_R theta_S) y).
Proof. reflexivity. Qed.

(** X3.  Constructive interference at the origin.  For grids of one shape,
    a wavelength other than zero and two angles for which the two
    coefficients of the phase difference, [k_Rx - k_Sx] and [k_Rz - k_Sz]
    as [calculate_intensity] computes them, are finite numbers, the
    returned intensity is 4 at every index where both grids hold 0. *)
Theorem intensity_at_origin (X Y : ndarray)
    (wavelength theta_R theta_S : float64) (out : stdout) :
  same_shape X Y →
  fne0 wavelength = true →
  is_finite (phase_coeff_X wavelength theta_R theta_S) →
  is_finite (phase_coeff_Y wavelength theta_R theta_S) →
  ∃ I, calculate_intensity X Y wavelength theta_R theta_S out = (Return I, out)
       ∧ same_shape X I
       ∧ ∀ i j, item X i j = Some (Fin 0) → item Y i j = Some (Fin 0) →
           item I i j = Some (Fin 4).
Proof.
  intros HXY Hw HcX HcY.
  destruct (calculate_intensity_returns X Y wavelength theta_R theta_S out Hw)
    as (I & HI & Hshape & Hitem).
  exists I. split; [exact HI|]. split; [auto|].
  intros i j Hx Hy. apply Hitem. exists (Fin 0), (Fin 0).
  repeat split; try assumption.
  unfold intensity_at. rewrite phase_at_coeff.
  destruct (phase_coeff_X wavelength theta_R theta_S) as [a| | |],
    (phase_coeff_Y wavelength theta_R theta_S) as [b| | |];
    simpl in *; try tauto.
  rewrite !Rmult_0_r, Rplus_0_r, cos_0. f_equal; ring.
Qed.

Lemma intensity_at_origin_witness :
  ∃ I, calculate_intensity [[Fin (-1); Fin 0]] [[Fin 0; Fin 0]] (Fin (1 / 2))
         (Fin 30) (Fin (-45)) [] = (Return I, [])
       ∧ same_shape [[Fin (-1); Fin 0]] I
       ∧ ∀ i j, item [[Fin (-1); Fin 0]] i j = Some (Fin 0) →
                item [[Fin 0; Fin 0]] i j = Some (Fin 0) →
                item I i j = Some (Fin 4).
Proof.
  assert (Hk : wave_number (Fin (1 / 2)) = Fin (2 * PI / (1 / 2))).
  { unfold wave_number. change (fmul (Fin 2) np_pi) with (Fin (2 * PI)).
    apply np_div_Fin. lra. }
  apply (intensity_at_origin [[Fin (-1); Fin 0]] [[Fin 0; Fin 0]] (Fin (1 / 2))
           (Fin 30) (Fin (-45)) []).
  - repeat constructor.
  - apply fne0_Fin. lra.
  - unfold phase_coeff_X. rewrite Hk. exact I.
  - unfold phase_coeff_Y. rewrite Hk. exact I.
Defined.

Lemma symmetric_beams_y_term (k theta y : R) :
  fmul (fsub (fmul (Fin k) (np_cos (np_deg2rad (Fin theta))))
             (fmul (Fin k) (np_cos (np_deg2rad (Fin (- theta))))))
       (Fin y)
  = Fin 0.
Proof.
  rewrite !np_deg2rad_Fin. simpl.
  replace (- theta * (PI / 180)) with (- (theta * (PI / 180))) by ring.
  rewrite cos_neg. f_equal; ring.
Qed.

(** X4.  For two beams at opposite finite angles ([theta_S = -theta_R]) and
    a wavelength other than 0 and NaN, the intensity does not depend on
    the second coordinate: two grid points with the same [X] and finite
    [Y] get the same intensity. *)
Theorem symmetric_beams_intensity_independent_of_Y (X Y : ndarray)
    (wavelength : float64) (theta : R) (out : stdout) (I : ndarray) :
  ¬ is_nan wavelength →
  calculate_intensity X Y wavelength (Fin theta) (Fin (- theta)) out
  = (Return I, out) →
  ∀ i j i' j' x y y',
    item X i j = Some x → item X i' j' = Some x →
    item Y i j = Some (Fin y) → item Y i' j' = Some (Fin y') →
    is_Some (item I i j) ∧ item I i j = item I i' j'.
Proof.
  intros Hnan Hrun i j i' j' x y y' Hx Hx' Hy Hy'.
  destruct (calculate_intensity_inv _ _ _ _ _ _ _ _ Hrun) as [Hw _].
  destruct (calculate_intensity_returns X Y wavelength (Fin theta)
              (Fin (- theta)) out Hw) as (I' & HI' & _ & Hitem).
  rewrite HI' in Hrun. injection Hrun as <-.
  assert (H1 : item I' i j
               = Some (intensity_at wavelength (Fin theta) (Fin (- theta)) x (Fin y)))
    by (apply Hitem; eauto).
  assert (H2 : item I' i' j'
               = Some (intensity_at wavelength (Fin theta) (Fin (- theta)) x (Fin y')))
    by (apply Hitem; eauto).
  rewrite H1, H2. split; [eauto|]. f_equal.
  destruct (wave_number_finite wavelength Hw Hnan) as [k Hk].
  unfold intensity_at, phase_at. rewrite Hk. cbv zeta.
  rewrite !symmetric_beams_y_term. reflexivity.
Qed.

Lemma symmetric_beams_intensity_independent_of_Y_witness :
  ∃ I, calculate_intensity [[Fin 1]; [Fin 1]] [[Fin 0]; [Fin 2]] (Fin (1 / 2))
         (Fin 30) (Fin (- 30)) [] = (Return I, [])
       ∧ item I 0%nat 0%nat = item I 1%nat 0%nat.
Proof.
  destruct (calculate_intensity_returns [[Fin 1]; [Fin 1]] [[Fin 0]; [Fin 2]]
              (Fin (1 / 2)) (Fin 30) (Fin (- 30)) []) as (I & HI & _).
  { apply fne0_Fin. lra. }
  exists I. split; [exact HI|].
  refine (proj2 (symmetric_beams_intensity_independent_of_Y
                   [[Fin 1]; [Fin 1]] [[Fin 0]; [Fin 2]] (Fin (1 / 2)) 30 [] I
                   _ HI 0%nat 0%nat 1%nat 0%nat (Fin 1) 0 2 _ _ _ _));
    simpl; tauto || reflexivity.
Defined.

(** ** Further properties: when [calculate_grating_parameters] fails, and
    what it returns at the edges *)

(** X6.  [calculate_grating_parameters] raises exactly when [n_2] is zero,
    and then [ZeroDivisionError]; for every other input, a zero wavelength
    included, it returns a record.  In no case does it print anything. *)
Theorem calculate_grating_parameters_error_behaviour
    (wavelength theta_R theta_S n_1 n_2 : float64) (out : stdout) :
  (n_2 ≠ Fin 0
   ∧ calculate_grating_parameters wavelength theta_R theta_S n_1 n_2 out
     = (Return (grating_record wavelength theta_R theta_S n_1 n_2), out))
  ∨ (n_2 = Fin 0
     ∧ calculate_grating_parameters wavelength theta_R theta_S n_1 n_2 out
       = (Raise ZeroDivisionError, out)).
Proof.
  destruct (fne0 n_2) eqn:Hn.
  - left. split.
    + intros ->. rewrite fne0_zero in Hn. discriminate.
    + apply calculate_grating_parameters_returns. exact Hn.
  - right. apply fne0_false in Hn. subst n_2.
    split; [reflexivity | apply calculate_grating_parameters_raises].
Qed.

Lemma fmul_NaN_r (x : float64) : fmul x NaN = NaN.
Proof. destruct x; reflexivity. Qed.

Lemma np_div_NaN_r (x : float64) : np_div x NaN = NaN.
Proof. destruct x; reflexivity. Qed.

Lemma fsub_NaN_r (x : float64) : fsub x NaN = NaN.
Proof. destruct x; reflexivity. Qed.

(** Every field of the ['medium'] sub-record is NaN as soon as one of the
    two refracted angles is. *)
Lemma medium_nan (wavelength theta_R theta_S n_1 n_2 : float64) :
  psi_R_rad theta_R n_1 n_2 = NaN ∨ psi_S_rad theta_S n_1 n_2 = NaN →
  medium (grating_record wavelength theta_R theta_S n_1 n_2)
  = MediumParams NaN NaN NaN NaN NaN NaN NaN NaN.
Proof.
  intros Hpsi.
  assert (Hy : freq_y_medium wavelength theta_R theta_S n_1 n_2 = NaN).
  { unfold freq_y_medium. destruct Hpsi as [-> | ->]; simpl np_sin;
      rewrite ?fsub_NaN_r; reflexivity. }
  assert (Hz : freq_z_medium wavelength theta_R theta_S n_1 n_2 = NaN).
  { unfold freq_z_medium. destruct Hpsi as [-> | ->]; simpl np_cos;
      rewrite ?fsub_NaN_r; reflexivity. }
  assert (Hpsim : psi_medium theta_R theta_S n_1 n_2 = NaN).
  { unfold psi_medium, np_degrees, np_rad2deg.
    destruct Hpsi as [-> | ->]; simpl; rewrite ?fadd_NaN_r; reflexivity. }
  unfold grating_record. cbn [medium]. unfold theta_bragg, bragg_arg, d_medium,
    d_y_medium, d_z_medium, freq_medium.
  rewrite Hy, Hz, Hpsim. simpl.
  rewrite fmul_NaN_r, np_div_NaN_r. reflexivity.
Qed.

(** X7.  Beyond the critical angle, that is when
    [(n_1 / n_2) * sin(theta)] has absolute value greater than 1 for one of
    the two beams, all eight fields of the returned ['medium'] sub-record
    are NaN. *)
Theorem beyond_critical_angle_medium_nan
    (wavelength theta_R theta_S n_1 n_2 : float64) (out out' : stdout)
    (p : grating_params) :
  calculate_grating_parameters wavelength theta_R theta_S n_1 n_2 out
  = (Return p, out') →
  flt (Fin 1) (np_abs (fmul (np_div n_1 n_2) (np_sin (np_deg2rad theta_R))))
  ∨ flt (Fin 1) (np_abs (fmul (np_div n_1 n_2) (np_sin (np_deg2rad theta_S)))) →
  medium p = MediumParams NaN NaN NaN NaN NaN NaN NaN NaN.
Proof.
  intros Hrun Hcrit.
  apply calculate_grating_parameters_inv in Hrun as (_ & -> & _).
  apply medium_nan. unfold psi_R_rad, psi_S_rad.
  destruct Hcrit as [H | H]; [left | right]; apply np_arcsin_outside, H.
Qed.

Lemma beyond_critical_angle_medium_nan_witness :
  medium (grating_record (Fin (1 / 2)) (Fin 90) (Fin 0) (Fin (3 / 2)) (Fin 1))
  = MediumParams NaN NaN NaN NaN NaN NaN NaN NaN.
Proof.
  apply (beyond_critical_angle_medium_nan (Fin (1 / 2)) (Fin 90) (Fin 0)
           (Fin (3 / 2)) (Fin 1) [] []).
  - apply calculate_grating_parameters_returns, fne0_Fin. lra.
  - left. rewrite np_div_Fin by lra. rewrite np_deg2rad_Fin. simpl.
    rewrite sin_deg_90. rewrite Rabs_pos_eq; lra.
Defined.

(** ** Further properties: degenerate gratings in air *)

Lemma np_sqrt_Fin (r : R) : 0 <= r → np_sqrt (Fin r) = Fin (sqrt r).
Proof. intros Hr. unfold np_sqrt. case_dec; [lra | reflexivity]. Qed.

Lemma sqrt_sum_squares_0_l (y : R) : sqrt (0 * 0 + y * y) = Rabs y.
Proof.
  replace (0 * 0 + y * y) with (Rsqr y) by (unfold Rsqr; ring).
  apply sqrt_Rsqr_abs.
Qed.

(** X8.  With both beams at one finite angle and a finite wavelength other
    than zero there is no grating in air: the three returned frequencies
    are 0 and [period_y] and [period_z] are infinite. *)
Theorem equal_angles_no_grating (wavelength theta : R) (n_1 n_2 : float64)
    (out out' : stdout) (p : grating_params) :
  wavelength ≠ 0 →
  calculate_grating_parameters (Fin wavelength) (Fin theta) (Fin theta) n_1 n_2 out
  = (Return p, out') →
  frequency (air p) = Fin 0 ∧ frequency_y (air p) = Fin 0
  ∧ frequency_z (air p) = Fin 0
  ∧ period_y (air p) = PInf ∧ period_z (air p) = PInf.
Proof.
  intros Hl Hrun.
  apply calculate_grating_parameters_inv in Hrun as (_ & -> & _).
  assert (Hy : freq_y_air (Fin wavelength) (Fin theta) (Fin theta) = Fin 0).
  { unfold freq_y_air. rewrite np_deg2rad_Fin. simpl np_sin.
    rewrite fsub_Fin, np_div_Fin by exact Hl. f_equal. field. exact Hl. }
  assert (Hz : freq_z_air (Fin wavelength) (Fin theta) (Fin theta) = Fin 0).
  { unfold freq_z_air. rewrite np_deg2rad_Fin. simpl np_cos.
    rewrite fsub_Fin, np_div_Fin by exact Hl. f_equal. field. exact Hl. }
  cbn [air grating_record frequency frequency_y frequency_z period_y period_z].
  unfold freq_air, d_y_air, d_z_air. rewrite Hy, Hz, fne0_zero.
  simpl fpow2. simpl fadd. rewrite np_sqrt_Fin by lra.
  rewrite sqrt_sum_squares_0_l, Rabs_R0. simpl.
  rewrite Rmult_0_l, Rabs_R0. repeat split.
Qed.

Lemma equal_angles_no_grating_witness :
  period_y (air (grating_record (Fin (1 / 2)) (Fin 30) (Fin 30) (Fin 1)
                   (Fin (3 / 2)))) = PInf.
Proof.
  refine (proj1 (proj2 (proj2 (proj2 (equal_angles_no_grating (1 / 2) 30 (Fin 1)
                   (Fin (3 / 2)) [] [] _ _ _))))).
  - lra.
  - apply calculate_grating_parameters_returns, fne0_Fin. lra.
Defined.

(** X9.  With the two beams at opposite finite angles and a finite
    wavelength other than zero the grating in air is not slanted: the tilt
    is 0, the frequency along z is 0, [period_z] is infinite and [period]
    is [period_y]. *)
Theorem symmetric_beams_unslanted (wavelength theta : R) (n_1 n_2 : float64)
    (out out' : stdout) (p : grating_params) :
  wavelength ≠ 0 →
  calculate_grating_parameters (Fin wavelength) (Fin theta) (Fin (- theta))
    n_1 n_2 out = (Return p, out') →
  tilt_angle (air p) = Fin 0
  ∧ frequency_z (air p) = Fin 0 ∧ period_z (air p) = PInf
  ∧ period (air p) = period_y (air p).
Proof.
  intros Hl Hrun.
  apply calculate_grating_parameters_inv in Hrun as (_ & -> & _).
  assert (Hz : freq_z_air (Fin wavelength) (Fin theta) (Fin (- theta)) = Fin 0).
  { unfold freq_z_air. rewrite !np_deg2rad_Fin. simpl np_cos.
    replace (- theta * (PI / 180)) with (- (theta * (PI / 180))) by ring.
    rewrite cos_neg, fsub_Fin, np_div_Fin by exact Hl. f_equal. field. exact Hl. }
  assert (Hpsi : psi_air (Fin theta) (Fin (- theta)) = Fin 0).
  { unfold psi_air. simpl fadd. rewrite np_div_Fin by lra. f_equal. field. }
  assert (Hy : ∃ f, freq_y_air (Fin wavelength) (Fin theta) (Fin (- theta)) = Fin f).
  { unfold freq_y_air. rewrite !np_deg2rad_Fin. simpl np_sin.
    rewrite fsub_Fin, np_div_Fin by exact Hl. eauto. }
  destruct Hy as [f Hy].
  cbn [air grating_record frequency_z period period_y period_z tilt_angle].
  unfold d_air, d_y_air, d_z_air. rewrite Hpsi, Hy, Hz, fne0_zero.
  rewrite np_deg2rad_Fin. simpl np_cos. rewrite cos_deg_0.
  repeat split.
  - simpl. rewrite Rmult_0_l, Rabs_R0. reflexivity.
  - destruct (Req_dec_T f 0) as [-> | Hf].
    + rewrite fne0_zero. simpl. rewrite signed_inf_pos by lra. reflexivity.
    + rewrite fne0_Fin, np_div_Fin by exact Hf. simpl.
      rewrite Rmult_1_r. reflexivity.
Qed.

Lemma symmetric_beams_unslanted_witness :
  period (air (grating_record (Fin (1 / 2)) (Fin 30) (Fin (- 30)) (Fin 1)
                 (Fin (3 / 2))))
  = period_y (air (grating_record (Fin (1 / 2)) (Fin 30) (Fin (- 30)) (Fin 1)
                     (Fin (3 / 2)))).
Proof.
  refine (proj2 (proj2 (proj2 (symmetric_beams_unslanted (1 / 2) 30
                   (Fin 1) (Fin (3 / 2)) [] [] _ _ _)))).
  - lra.
  - apply calculate_grating_parameters_returns, fne0_Fin. lra.
Defined.

(** ** Further properties: the script and zero inputs *)

(** The grid of the script: [get_size] at [scale = 1], [step = 0.01]
    returns. *)
Lemma get_size_script_returns (out : stdout) :
  ∃ X Y, get_size 1 (1 / 100) out = (Return (X, Y), out).
Proof.
  unfold get_size, np_arange, mbind, py_mbind, py_bind.
  destruct (Req_dec_T (1 / 100) 0) as [H0 | _]; [exfalso; lra|].
  unfold mret, py_mret, py_ret.
  match goal with |- context [np_meshgrid ?x ?y] =>
    destruct (np_meshgrid x y) as [X Y] end.
  eauto.
Qed.

Lemma script_zero_division (X Y : ndarray)
    (wavelength theta_R theta_S n_1 n_2 : float64) (s : pyplot) (out : stdout) :
  fne0 wavelength = false ∨ fne0 n_1 = false ∨ fne0 n_2 = false →
  script X Y wavelength theta_R theta_S n_1 n_2 s out
  = (Raise ZeroDivisionError, out).
Proof.
  intros Hzero. unfold script, mbind, py_mbind, py_bind.
  destruct (fne0 wavelength) eqn:Hw.
  2: { rewrite calculate_intensity_zero by exact Hw. reflexivity. }
  rewrite calculate_intensity_fused by exact Hw.
  destruct (fne0 n_2) eqn:Hn2.
  2: { unfold py_truediv. rewrite Hn2. reflexivity. }
  rewrite py_truediv_ne0 by exact Hn2.
  destruct (fne0 (np_div wavelength n_2)) eqn:Hwm.
  2: { rewrite calculate_intensity_zero by exact Hwm. reflexivity. }
  rewrite calculate_intensity_fused by exact Hwm.
  rewrite calculate_grating_parameters_returns by exact Hn2.
  destruct Hzero as [[=] | [Hn1 | [=]]].
  unfold create_table_image, create_graphs, mbind, py_mbind, py_bind,
    mret, py_mret, py_ret, py_truediv.
  rewrite Hn1. reflexivity.
Qed.

(** X18.  A zero among the wavelength and the two refractive indices ends
    the script with [ZeroDivisionError], nothing printed and no state
    returned: the grid is built, and the first division of two Python
    floats by that zero raises. *)
Theorem main_zero_division
    (wavelength theta_R theta_S n_1 n_2 : float64) (s : pyplot) (out : stdout) :
  wavelength = Fin 0 ∨ n_1 = Fin 0 ∨ n_2 = Fin 0 →
  main wavelength theta_R theta_S n_1 n_2 s out = (Raise ZeroDivisionError, out).
Proof.
  intros Hzero. unfold main. cbv zeta.
  destruct (get_size_script_returns out) as (X & Y & Hgrid).
  unfold mbind, py_mbind, py_bind. rewrite Hgrid. cbn [fst snd].
  apply script_zero_division.
  destruct Hzero as [-> | [-> | ->]]; rewrite fne0_zero; auto.
Qed.

Lemma main_zero_division_witness :
  main (Fin (1 / 2)) (Fin 30) (Fin (-30)) (Fin 0) (Fin (3 / 2))
    {| figures := []; files := ∅ |} []
  = (Raise ZeroDivisionError, []).
Proof.
  apply main_zero_division. right. left. reflexivity.
Defined.

(** X19.  [calculate_intensity] raises exactly when the wavelength is
    zero, and then [ZeroDivisionError], before any array is touched and
    whatever the grids and angles; for every other wavelength, NaN and the
    infinities included, and grids of one shape it returns the array of
    [intensity_at] over the two grids.  It never prints. *)
Theorem calculate_intensity_error_behaviour (X Y : ndarray)
    (wavelength theta_R theta_S : float64) (out : stdout) :
  (wavelength = Fin 0 →
   calculate_intensity X Y wavelength theta_R theta_S out
   = (Raise ZeroDivisionError, out))
  ∧ (wavelength ≠ Fin 0 → same_shape X Y →
     calculate_intensity X Y wavelength theta_R theta_S out
     = (Return (ufunc2 (intensity_at wavelength theta_R theta_S) X Y), out)
     ∧ same_shape X (ufunc2 (intensity_at wavelength theta_R theta_S) X Y)).
Proof.
  split.
  - intros ->. apply calculate_intensity_raises.
  - intros Hw HXY. split.
    + apply calculate_intensity_fused.
      destruct (fne0 wavelength) eqn:H0; [reflexivity|].
      apply fne0_false in H0. contradiction.
    + apply same_shape_ufunc2, HXY.
Qed.

Lemma calculate_intensity_error_behaviour_witness :
  calculate_intensity [[Fin 0; Fin 1]] [[Fin 2; Fin 3]] (Fin 0) (Fin 30)
    (Fin (-30)) [] = (Raise ZeroDivisionError, [])
  ∧ calculate_intensity [[Fin 0; Fin 1]] [[Fin 2; Fin 3]] PInf (Fin 30)
      (Fin (-30)) []
    = (Return (ufunc2 (intensity_at PInf (Fin 30) (Fin (-30)))
                 [[Fin 0; Fin 1]] [[Fin 2; Fin 3]]), []).
Proof.
  split.
  - apply (proj1 (calculate_intensity_error_behaviour [[Fin 0; Fin 1]]
                    [[Fin 2; Fin 3]] (Fin 0) (Fin 30) (Fin (-30)) [])).
    reflexivity.
  - apply (proj2 (calculate_intensity_error_behaviour [[Fin 0; Fin 1]]
                    [[Fin 2; Fin 3]] PInf (Fin 30) (Fin (-30)) [])).
    + discriminate.
    + repeat constructor.
Defined.

(** X20.  A zero wavelength does not make [calculate_grating_parameters]
    fail.  When the difference of the two computed sines,
    [np.sin(theta_S_rad) - np.sin(theta_R_rad)], is a finite number other
    than zero, the cosine of the tilt angle is finite and [n_1] is finite,
    the ['air'] sub-record then has an infinite [frequency_y], [period_y]
    and [period] equal to 0, and NaN as Bragg angle. *)
Theorem zero_wavelength_degenerate_record (theta_R theta_S : float64)
    (n_1 d : R) (n_2 : float64) (out out' : stdout) (p : grating_params) :
  fsub (np_sin (np_deg2rad theta_S)) (np_sin (np_deg2rad theta_R)) = Fin d →
  d ≠ 0 →
  is_finite (np_cos (np_deg2rad (psi_air theta_R theta_S))) →
  calculate_grating_parameters (Fin 0) theta_R theta_S (Fin n_1) n_2
    out = (Return p, out') →
  frequency_y (air p) = PInf
  ∧ period_y (air p) = Fin 0
  ∧ period (air p) = Fin 0
  ∧ bragg_angle (air p) = NaN.
Proof.
  intros Hsin Hd Hcos Hrun.
  apply calculate_grating_parameters_inv in Hrun as (_ & -> & _).
  assert (Hy : freq_y_air (Fin 0) theta_R theta_S = PInf
               ∨ freq_y_air (Fin 0) theta_R theta_S = NInf).
  { unfold freq_y_air. rewrite Hsin.
    unfold np_div, signed_inf. case_dec; try lra; auto. }
  assert (Hdy : d_y_air (Fin 0) theta_R theta_S = Fin 0).
  { unfold d_y_air. destruct Hy as [-> | ->]; reflexivity. }
  cbn [air grating_record frequency_y period_y period bragg_angle].
  unfold theta_bragg, bragg_arg, d_air. rewrite Hdy.
  destruct (np_cos (np_deg2rad (psi_air theta_R theta_S))) as [c| | |];
    simpl in Hcos; try contradiction.
  repeat split.
  - destruct Hy as [-> | ->]; simpl; rewrite signed_inf_pos by lra; reflexivity.
  - simpl. rewrite Rabs_R0. reflexivity.
  - simpl. rewrite Rmult_0_l, Rabs_R0. reflexivity.
  - simpl fmul. replace (2 * n_1 * (0 * c)) with 0 by ring.
    unfold np_div, signed_inf. case_dec; try reflexivity; exfalso; lra.
Qed.

Lemma zero_wavelength_degenerate_record_witness :
  period_y (air (grating_record (Fin 0) (Fin 30) (Fin (-30)) (Fin 1)
                   (Fin (3 / 2)))) = Fin 0.
Proof.
  refine (proj1 (proj2 (zero_wavelength_degenerate_record (Fin 30) (Fin (-30)) 1
                          (- (1 / 2) - 1 / 2) (Fin (3 / 2)) [] [] _ _ _ _ _))).
  - rewrite !np_deg2rad_Fin. simpl np_sin.
    rewrite sin_deg_30, sin_deg_minus_30. reflexivity.
  - lra.
  - unfold psi_air. simpl fadd. rewrite np_div_Fin by lra. exact I.
  - apply calculate_grating_parameters_returns, fne0_Fin. lra.
Defined.

(** ** Further properties: more symmetries *)

Lemma fne0_fneg (x : float64) : fne0 (fneg x) = fne0 x.
Proof.
  destruct x as [r| | |]; simpl; try reflexivity.
  case_dec; try reflexivity; exfalso; lra.
Qed.

Lemma np_div_fneg_l (a b : float64) : np_div (fneg a) b = fneg (np_div a b).
Proof.
  destruct a as [x| | |], b as [y| | |]; simpl; try reflexivity.
  - destruct (Req_dec_T y 0) as [_ | Hy]; [apply signed_inf_opp|].
    simpl. apply (f_equal Fin). field. exact Hy.
  - apply (f_equal Fin). lra.
  - apply (f_equal Fin). lra.
  - destruct (Rlt_dec y 0); reflexivity.
  - destruct (Rlt_dec y 0); reflexivity.
Qed.

Lemma np_div_fneg_r (a b : float64) :
  fne0 b = true → np_div a (fneg b) = fneg (np_div a b).
Proof.
  destruct a as [x| | |], b as [y| | |]; simpl; try reflexivity;
    try (intros _; apply (f_equal Fin); lra).
  - destruct (Req_dec_T y 0) as [-> | Hy]; [discriminate|]. intros _.
    destruct (Req_dec_T (- y) 0); [exfalso; lra|].
    simpl. apply (f_equal Fin). field. exact Hy.
  - destruct (Req_dec_T y 0) as [-> | Hy]; [discriminate|]. intros _.
    destruct (Rlt_dec (- y) 0), (Rlt_dec y 0); try reflexivity; exfalso; lra.
  - destruct (Req_dec_T y 0) as [-> | Hy]; [discriminate|]. intros _.
    destruct (Rlt_dec (- y) 0), (Rlt_dec y 0); try reflexivity; exfalso; lra.
Qed.

Lemma fsub_fneg (a b : float64) : fsub (fneg a) (fneg b) = fneg (fsub a b).
Proof. unfold fsub. apply fadd_fneg. Qed.

Lemma wave_number_fneg (wavelength : float64) :
  fne0 wavelength = true →
  wave_number (fneg wavelength) = fneg (wave_number wavelength).
Proof. intros Hw. unfold wave_number. apply np_div_fneg_r, Hw. Qed.

Lemma phase_at_fneg_wavelength (wavelength theta_R theta_S x y : float64) :
  fne0 wavelength = true →
  phase_at (fneg wavelength) theta_R theta_S x y
  = fneg (phase_at wavelength theta_R theta_S x y).
Proof.
  intros Hw. unfold phase_at. cbv zeta.
  rewrite wave_number_fneg by exact Hw.
  rewrite !fmul_fneg_l, !fsub_fneg, !fmul_fneg_l, fadd_fneg. reflexivity.
Qed.

(** X21.  The sign of the wavelength does not matter to
    [calculate_intensity]: with the wavelength negated it raises the same
    exception or returns the same array. *)
Theorem calculate_intensity_wavelength_sign (X Y : ndarray)
    (wavelength theta_R theta_S : float64) (out : stdout) :
  calculate_intensity X Y (fneg wavelength) theta_R theta_S out
  = calculate_intensity X Y wavelength theta_R theta_S out.
Proof.
  destruct (fne0 wavelength) eqn:Hw.
  - rewrite !calculate_intensity_fused by (rewrite ?fne0_fneg; exact Hw).
    do 2 f_equal. apply ufunc2_ext. intros x y. unfold intensity_at.
    rewrite phase_at_fneg_wavelength, np_cos_fneg by exact Hw. reflexivity.
  - rewrite !calculate_intensity_zero by (rewrite ?fne0_fneg; exact Hw).
    reflexivity.
Qed.

Lemma np_abs_fneg (x : float64) : np_abs (fneg x) = np_abs x.
Proof. destruct x; simpl; try reflexivity. rewrite Rabs_Ropp. reflexivity. Qed.

Lemma fpow2_fneg (x : float64) : fpow2 (fneg x) = fpow2 x.
Proof.
  unfold fpow2. rewrite fmul_fneg_l, fmul_fneg_r. apply fneg_involutive.
Qed.

Lemma fadd_comm (x y : float64) : fadd x y = fadd y x.
Proof. destruct x, y; simpl; try reflexivity. f_equal; lra. Qed.

(** The reciprocal that gives a period, of a frequency and of its
    opposite: opposite, or both infinite. *)
Lemma period_of_fneg (f : float64) :
  (if fne0 (fneg f) then np_div (Fin 1) (fneg f) else PInf)
  = fneg (if fne0 f then np_div (Fin 1) f else PInf)
  ∨ (if fne0 (fneg f) then np_div (Fin 1) (fneg f) else PInf)
    = (if fne0 f then np_div (Fin 1) f else PInf).
Proof.
  rewrite fne0_fneg. destruct (fne0 f) eqn:Hf; [left | right; reflexivity].
  apply np_div_fneg_r, Hf.
Qed.

Lemma np_arcsin_fneg (x : float64) : np_arcsin (fneg x) = fneg (np_arcsin x).
Proof.
  destruct x as [r| | |]; simpl; try reflexivity.
  case_dec; simpl; try reflexivity; try (exfalso; lra).
  rewrite asin_opp. reflexivity.
Qed.

(** The absolute value of a Bragg angle, of a period and of its opposite. *)
Lemma abs_theta_bragg_fneg (wavelength n d : float64) :
  np_abs (theta_bragg wavelength n (fneg d))
  = np_abs (theta_bragg wavelength n d).
Proof.
  unfold theta_bragg, bragg_arg. rewrite fmul_fneg_r.
  destruct (fne0 (fmul (fmul (Fin 2) n) d)) eqn:H0.
  - rewrite np_div_fneg_r by exact H0.
    rewrite np_arcsin_fneg. unfold np_rad2deg.
    rewrite fmul_fneg_l. apply np_abs_fneg.
  - apply fne0_false in H0. rewrite H0.
    replace (fneg (Fin 0)) with (Fin 0) by (simpl; f_equal; lra).
    reflexivity.
Qed.

(** X22.  Exchanging the reference and the signal beam leaves the grating
    as it is: whenever [calculate_grating_parameters] returns for the
    angles in one order, it returns for the other order, with the same
    period, period_y, period_z, frequency, frequency_y, frequency_z and
    tilt_angle in both sub-records, and Bragg angles of the same absolute
    value. *)
Theorem grating_parameters_beam_swap
    (wavelength theta_R theta_S n_1 n_2 : float64) (out out' : stdout)
    (p : grating_params) :
  calculate_grating_parameters wavelength theta_R theta_S n_1 n_2 out
  = (Return p, out') →
  ∃ p', calculate_grating_parameters wavelength theta_S theta_R n_1 n_2 out
        = (Return p', out')
        ∧ abs_fields (air p') = abs_fields (air p)
        ∧ tilt_angle (air p') = tilt_angle (air p)
        ∧ np_abs (bragg_angle (air p')) = np_abs (bragg_angle (air p))
        ∧ abs_fields (medium p') = abs_fields (medium p)
        ∧ tilt_angle (medium p') = tilt_angle (medium p)
        ∧ np_abs (bragg_angle (medium p')) = np_abs (bragg_angle (medium p)).
Proof.
  intros Hrun.
  apply calculate_grating_parameters_inv in Hrun as (Hn & -> & ->).
  exists (grating_record wavelength theta_S theta_R n_1 n_2).
  split; [apply calculate_grating_parameters_returns, Hn|].
  assert (Hfy : freq_y_air wavelength theta_S theta_R
                = fneg (freq_y_air wavelength theta_R theta_S)).
  { unfold freq_y_air. rewrite <- np_div_fneg_l, <- fsub_swap. reflexivity. }
  assert (Hfz : freq_z_air wavelength theta_S theta_R
                = fneg (freq_z_air wavelength theta_R theta_S)).
  { unfold freq_z_air. rewrite <- np_div_fneg_l, <- fsub_swap. reflexivity. }
  assert (Hpsi : psi_air theta_S theta_R = psi_air theta_R theta_S).
  { unfold psi_air. rewrite fadd_comm. reflexivity. }
  assert (Hmy : freq_y_medium wavelength theta_S theta_R n_1 n_2
                = fneg (freq_y_medium wavelength theta_R theta_S n_1 n_2)).
  { unfold freq_y_medium, psi_S_rad, psi_R_rad.
    rewrite <- np_div_fneg_l, <- fmul_fneg_l, <- fsub_swap. reflexivity. }
  assert (Hmz : freq_z_medium wavelength theta_S theta_R n_1 n_2
                = fneg (freq_z_medium wavelength theta_R theta_S n_1 n_2)).
  { unfold freq_z_medium, psi_S_rad, psi_R_rad.
    rewrite <- np_div_fneg_l, <- fmul_fneg_l, <- fsub_swap. reflexivity. }
  assert (Hpsim : psi_medium theta_S theta_R n_1 n_2
                  = psi_medium theta_R theta_S n_1 n_2).
  { unfold psi_medium, psi_S_rad, psi_R_rad. rewrite fadd_comm. reflexivity. }
  unfold abs_fields.
  cbn [air medium grating_record period period_y period_z frequency
       frequency_y frequency_z tilt_angle bragg_angle].
  unfold d_air, d_medium, d_y_air, d_z_air, d_y_medium, d_z_medium,
    freq_air, freq_medium.
  rewrite Hfy, Hfz, Hpsi, Hmy, Hmz, Hpsim.
  rewrite !fpow2_fneg, !fmul_fneg_l, !np_abs_fneg.
  destruct (period_of_fneg (freq_y_air wavelength theta_R theta_S)) as [-> | ->],
    (period_of_fneg (freq_z_air wavelength theta_R theta_S)) as [-> | ->],
    (period_of_fneg (freq_y_medium wavelength theta_R theta_S n_1 n_2))
      as [-> | ->],
    (period_of_fneg (freq_z_medium wavelength theta_R theta_S n_1 n_2))
      as [-> | ->];
    rewrite ?fmul_fneg_l, ?np_abs_fneg, ?abs_theta_bragg_fneg;
    repeat split; reflexivity.
Qed.

Lemma grating_parameters_beam_swap_witness :
  ∃ p', calculate_grating_parameters (Fin (1 / 2)) (Fin (-30)) (Fin 30)
          (Fin 1) (Fin (3 / 2)) [] = (Return p', [])
        ∧ abs_fields (air p')
          = abs_fields (air (grating_record (Fin (1 / 2)) (Fin 30) (Fin (-30))
                               (Fin 1) (Fin (3 / 2)))).
Proof.
  destruct (grating_parameters_beam_swap (Fin (1 / 2)) (Fin 30) (Fin (-30))
              (Fin 1) (Fin (3 / 2)) [] []
              (grating_record (Fin (1 / 2)) (Fin 30) (Fin (-30)) (Fin 1)
                 (Fin (3 / 2)))) as (p' & Hrun & Hair & _).
  { apply calculate_grating_parameters_returns, fne0_Fin. lra. }
  exists p'. auto.
Defined.
